(** * RoAI multi-LLM gateway: routing policy, ensemble reconciliation, audit chain

    A shallow embedding of three components of the Python sources

    - [app/router.py]                    ([Module Router]),
    - [app/services/ensemble_service.py] with the result constructors of
      [app/services/openai_service.py], [app/services/gemini_service.py]
      and [app/gateway.py]               ([Module Ensemble]),
    - [app/utils/audit_logger.py]        ([Module Sha256], [Module Json],
      [Module Audit]),

    followed by the properties stated about them.

    Modelling conventions.

    - Python [int] is [Z].
    - The router only compares the floats it is given; there a [float] is
      the rational it is, and the comparison is exact.  The percentage of
      the audit report is kept as a rational as well.
    - The ensemble service computes with the numbers of the provider
      replies.  There a number is a Python number ([Module Number]): a
      [bool], an unbounded [int] or a binary64 [float], with the
      interpreter's mixed arithmetic and comparisons, its [round(x, n)],
      and the [TypeError] and [OverflowError] it raises.  A score or a
      confidence of a reply is any value [json.loads] can return.
    - A dictionary with a fixed set of keys is a record; a key read with
      [d.get(k, default)] is an [option] field.
    - Everything the program observes from outside (provider replies, the
      clock, [os.urandom]) is an explicit argument.
    - An f-string is kept as its template together with the interpolated
      values ([Ensemble.Reasoning]); rendering numbers to text is not
      modelled, except that formatting an integer as a float can raise. *)

From Stdlib Require Import ZArith NArith QArith Qround Qabs Lqa Lia.
From Stdlib Require Import Bool List String Ascii DecimalString.
From Stdlib Require Import Floats.
Import ListNotations.

Local Open Scope string_scope.

#[local] Set Warnings "-inexact-float".

(** ** Python helpers on optional fields and on floats that are only
    compared *)

Module Py.

(** [a > b] on two floats, each given as the rational it is. *)
Definition gt (a b : Q) : bool := negb (Qle_bool a b).

(** [d.get(k, default)] *)
Definition get {A} (field : option A) (default : A) : A :=
  match field with
  | Some v => v
  | None => default
  end.

(** Nearest integer, ties to the even neighbour. *)
Definition round_half_even (x : Q) : Z :=
  let f := Qfloor x in
  let r := x - inject_Z f in
  if gt (1 # 2) r then f
  else if gt r (1 # 2) then (f + 1)%Z
  else if Z.even f then f else (f + 1)%Z.

End Py.

(** ** Exceptions

    A call either returns a value or raises; [Raise] carries the name of
    the Python exception class. *)

Inductive Exc (A : Type) : Type :=
| Ok (a : A)
| Raise (exception : string).

Arguments Ok {A} a.
Arguments Raise {A} exception.

Definition bind {A B} (m : Exc A) (k : A -> Exc B) : Exc B :=
  match m with
  | Ok a => k a
  | Raise e => Raise e
  end.

(** [try: m except Exception: handler] *)
Definition try_except {A} (m : Exc A) (handler : Exc A) : Exc A :=
  match m with
  | Ok a => Ok a
  | Raise _ => handler
  end.

Declare Scope exc_scope.
Delimit Scope exc_scope with exc.
Notation "x <- m ;; k" := (bind m (fun x => k))
  (at level 61, m at next level, right associativity) : exc_scope.
Notation "' p <- m ;; k" := (bind m (fun p => k))
  (at level 61, p pattern, m at next level, right associativity) : exc_scope.

(** ** Python numbers

    [bool], [int] and [float] as the interpreter treats them in
    arithmetic: a [bool] counts as the integer 0 or 1, integers are
    unbounded and exact, a [float] is an IEEE 754 binary64 number (the
    kernel's primitive [float], whose operations round to nearest, ties to
    even), an integer meeting a float is converted to the nearest float
    first, and a conversion or an integer division whose result would not
    be finite raises [OverflowError]. *)

Module Number.

Inductive number :=
| B (b : bool)
| I (z : Z)
| F (f : float).

(** The integer an [int] or a [bool] stands for. *)
Definition int_of (x : number) : option Z :=
  match x with
  | B true => Some 1%Z
  | B false => Some 0%Z
  | I z => Some z
  | F _ => None
  end.

(** The least magnitude that rounds to [2 ** 1024]: half an ulp above the
    largest float. *)
Definition overflow_threshold : Z := (2 ^ 1024 - 2 ^ 970)%Z.

(** The float nearest to an integer. *)
Definition nearest (z : Z) : float :=
  SF2Prim (binary_normalize 53 1024 z 0 false).

(** The float nearest to the quotient of two integers, the second one not
    zero; a zero quotient takes the sign of the operands. *)
Definition nearest_quotient (a b : Z) : float :=
  let negative := xorb (a <? 0)%Z (b <? 0)%Z in
  match Z.abs a, Z.abs b with
  | Zpos ma, Zpos mb =>
      let '(mz, ez, lz) := SFdiv_core_binary 53 1024 (Zpos ma) 0 (Zpos mb) 0 in
      SF2Prim (binary_round_aux 53 1024 negative mz ez lz)
  | _, _ => if negative then (-0)%float else 0%float
  end.

(** The conversion an arithmetic operation applies to an operand that
    meets a float, and [float(x)]. *)
Definition to_float (x : number) : Exc float :=
  match x with
  | F f => Ok f
  | B true => Ok 1%float
  | B false => Ok 0%float
  | I z =>
      if (Z.abs z <? overflow_threshold)%Z then Ok (nearest z)
      else Raise "OverflowError"
  end.

Definition arith (on_int : Z -> Z -> Z) (on_float : float -> float -> float)
    (x y : number) : Exc number :=
  match int_of x, int_of y with
  | Some a, Some b => Ok (I (on_int a b))
  | _, _ =>
      (fx <- to_float x ;;
       fy <- to_float y ;;
       Ok (F (on_float fx fy)))%exc
  end.

(** [x + y] *)
Definition add : number -> number -> Exc number := arith Z.add PrimFloat.add.

(** [f + x] on a float [f]: a float. *)
Definition float_add (f : float) (x : number) : Exc float :=
  (fx <- to_float x ;; Ok (f + fx)%float)%exc.

(** [x - y] *)
Definition sub : number -> number -> Exc number := arith Z.sub PrimFloat.sub.

(** [x * y] *)
Definition mul : number -> number -> Exc number := arith Z.mul PrimFloat.mul.

(** [x / y]: true division. *)
Definition truediv (x y : number) : Exc number :=
  match int_of x, int_of y with
  | Some a, Some b =>
      if (b =? 0)%Z then Raise "ZeroDivisionError"
      else if (overflow_threshold * Z.abs b <=? Z.abs a)%Z
           then Raise "OverflowError"
      else Ok (F (nearest_quotient a b))
  | _, _ =>
      (fx <- to_float x ;;
       fy <- to_float y ;;
       if PrimFloat.eqb fy 0 then Raise "ZeroDivisionError"
       else Ok (F (fx / fy)))%exc
  end.

(** [abs(x)] *)
Definition abs (x : number) : number :=
  match x with
  | B true => I 1
  | B false => I 0
  | I z => I (Z.abs z)
  | F f => F (PrimFloat.abs f)
  end.

(** The order of an integer and a float, compared exactly; [None] when
    the float is not a number. *)
Definition compare_int_float (z : Z) (f : float) : option comparison :=
  match Prim2SF f with
  | S754_nan => None
  | S754_infinity negative => Some (if negative then Gt else Lt)
  | S754_zero _ => Some (z ?= 0)%Z
  | S754_finite negative m e =>
      let v := if negative then Zneg m else Zpos m in
      Some (if (0 <=? e)%Z then (z ?= v * 2 ^ e)%Z
            else (z * 2 ^ (- e) ?= v)%Z)
  end.

Definition compare (x y : number) : option comparison :=
  match int_of x, int_of y with
  | Some a, Some b => Some (a ?= b)%Z
  | Some a, None =>
      match y with
      | F g => compare_int_float a g
      | _ => None
      end
  | None, Some b =>
      match x with
      | F f => option_map CompOpp (compare_int_float b f)
      | _ => None
      end
  | None, None =>
      match x, y with
      | F f, F g =>
          match PrimFloat.compare f g with
          | FEq => Some Eq
          | FLt => Some Lt
          | FGt => Some Gt
          | FNotComparable => None
          end
      | _, _ => None
      end
  end.

(** [x > y] *)
Definition gt (x y : number) : bool :=
  match compare x y with
  | Some Gt => true
  | _ => false
  end.

(** [x < y] *)
Definition lt (x y : number) : bool :=
  match compare x y with
  | Some Lt => true
  | _ => false
  end.

(** [x >= y] *)
Definition ge (x y : number) : bool :=
  match compare x y with
  | Some Gt | Some Eq => true
  | _ => false
  end.

(** [min(x, y)]: the first argument unless the second is smaller. *)
Definition min (x y : number) : number := if lt y x then y else x.

(** [max(x, y)]: the first argument unless the second is larger. *)
Definition max (x y : number) : number := if gt y x then y else x.

(** [bool(x)] *)
Definition truthy (x : number) : bool :=
  match x with
  | B b => b
  | I z => negb (z =? 0)%Z
  | F f => negb (PrimFloat.eqb f 0)
  end.

(** [x or y] where [x] may be [None]. *)
Definition or_else (x : option number) (y : number) : number :=
  match x with
  | Some v => if truthy v then v else y
  | None => y
  end.

(** The rational a finite float is. *)
Definition exact (negative : bool) (m : positive) (e : Z) : Q :=
  let v := if negative then Zneg m else Zpos m in
  if (0 <=? e)%Z then inject_Z (v * 2 ^ e)
  else Qmake v (Z.to_pos (2 ^ (- e))).

(** [round(f, ndigits)] on a float, [ndigits >= 0]: the decimal with
    [ndigits] digits nearest to the value of [f], ties to the even last
    digit, read back as the float nearest to it; zeros, infinities and
    not-a-number stay as they are. *)
Definition round_float (f : float) (ndigits : nat) : float :=
  match Prim2SF f with
  | S754_finite negative m e =>
      let scale := (10 ^ Z.of_nat ndigits)%Z in
      let k := Py.round_half_even (exact negative m e * inject_Z scale) in
      if (k =? 0)%Z then (if negative then (-0)%float else 0%float)
      else nearest_quotient k scale
  | _ => f
  end.

(** [round(x, ndigits)], [ndigits >= 0]: an [int] or [bool] gives the
    same integer. *)
Definition round (x : number) (ndigits : nat) : number :=
  match x with
  | B true => I 1
  | B false => I 0
  | I z => I z
  | F f => F (round_float f ndigits)
  end.

(** Whether [format(x, ".nf")] returns: an integer is converted to a float
    first.  The text is not modelled. *)
Definition format_f (x : number) : Exc unit :=
  (_ <- to_float x ;; Ok tt)%exc.

End Number.

(** ** app/models/task.py and app/router.py *)

Module Router.

Inductive TaskType :=
| RISK_SCORING
| FRAUD_DETECTION
| COMPLIANCE_CHECK
| DOCUMENT_ANALYSIS
| GENERAL.

Record Task := {
  task_id : string;
  description : string;
  requires_strict_json : bool;
  context_length : Z;
  multi_document : bool;
  business_impact : Q;
  task_type : TaskType
}.

(** The pydantic field constraints of [Task]:
    [min_length=1], [ge=0], [ge=0.0, le=1.0]. *)
Definition Task_valid (t : Task) : Prop :=
  (1 <= String.length (description t))%nat /\
  (0 <= context_length t)%Z /\
  0 <= business_impact t /\ business_impact t <= 1.

Record LLMRouter := {
  context_length_threshold : Z;
  business_impact_threshold : Q
}.

(** [LLMRouter.__init__]: both thresholds come from the environment,
    with defaults ["80000"] and ["0.8"]. *)
Definition LLMRouter_init (env_context : option Z) (env_impact : option Q)
  : LLMRouter :=
  {| context_length_threshold := Py.get env_context 80000%Z;
     business_impact_threshold := Py.get env_impact (8 # 10) |}.

(** [LLMRouter.route] *)
Definition route (self : LLMRouter) (task : Task) : string :=
  if requires_strict_json task then "openai"
  else if (context_length task >? context_length_threshold self)%Z then "gemini"
  else if multi_document task then "gemini"
  else if Py.gt (business_impact task) (business_impact_threshold self)
       then "ensemble"
  else "openai".

(** [LLMRouter.validate_routing_decision] *)
Definition validate_routing_decision
    (self : LLMRouter) (task : Task) (expected_model : string) : bool :=
  String.eqb (route self task) expected_model.

(** *** Sample inputs *)

Definition default_router : LLMRouter := LLMRouter_init None None.

Definition sample_task (strict : bool) (context : Z) (multi : bool)
    (impact : Q) : Task :=
  {| task_id := "7f0c2a4e-task";
     description := "Analyze transaction";
     requires_strict_json := strict;
     context_length := context;
     multi_document := multi;
     business_impact := impact;
     task_type := GENERAL |}.

End Router.

(** ** app/gateway.py, the two provider services, app/services/ensemble_service.py *)

Module Ensemble.

Import Number.

#[local] Set Warnings "-register-all".

(** *** Gateway responses *)

(** A value [json.loads] returns: [None], a number, a string, a list, or a
    dictionary, whose keys are distinct and listed in the order of the
    text. *)
Inductive value :=
| VNone
| VNum (n : number)
| VStr (s : string)
| VList (items : list value)
| VDict (items : list (string * value)).

Fixpoint lookup (key : string) (items : list (string * value))
  : option value :=
  match items with
  | [] => None
  | (k, v) :: rest => if String.eqb k key then Some v else lookup key rest
  end.

(** [data.get(key, default)]: only a dictionary has the method. *)
Definition dict_get (data : value) (key : string) (default : value)
  : Exc value :=
  match data with
  | VDict items => Ok (Py.get (lookup key items) default)
  | _ => Raise "AttributeError"
  end.

(** What [json.loads] makes of a reply text: a [JSONDecodeError] or the
    value the text denotes.  The model starts from this outcome; the
    parser itself is not modelled. *)
Inductive Decoded :=
| JSONDecodeError
| Loaded (data : value).

(** The standardized response dictionary of [AIGateway]; [content] is the
    reply text, [None] when the provider sent none, together with its
    decoding. *)
Record Response := {
  success : bool;
  content : option (string * Decoded);
  input_tokens : Z;
  output_tokens : Z;
  cost : float;
  model : string;
  latency : float;
  provider : string;
  error : option string
}.

(** [AIGateway._error_response]: every exception of a provider SDK and
    every missing configuration ends here. *)
Definition _error_response (error_message provider : string) : Response :=
  {| success := false;
     content := None;
     input_tokens := 0;
     output_tokens := 0;
     cost := 0;
     model := "unknown";
     latency := 0;
     provider := provider;
     error := Some error_message |}.

(** *** Provider results *)

Record Metadata := {
  md_provider : string;
  md_model : option string;
  md_input_tokens : option Z;
  md_output_tokens : option Z;
  md_cost : option float;
  md_latency : option float;
  md_error : option string;
  md_note : option string
}.

(** The result dictionary of [analyze_risk] / [analyze_long_context], on
    the keys the ensemble reads.  [explanation] is the key ["reasoning"]
    of the OpenAI result and ["detailed_analysis"] of the Gemini result;
    the keys the services copy beside them ([risk_level], [summary],
    ...) are read by nothing modelled here and are left out. *)
Record Result := {
  risk_score : option value;
  confidence : option value;
  explanation : value;
  metadata : Metadata
}.

Definition response_metadata (provider : string) (response : Response)
    (note : option string) : Metadata :=
  {| md_provider := provider;
     md_model := Some (model response);
     md_input_tokens := Some (input_tokens response);
     md_output_tokens := Some (output_tokens response);
     md_cost := Some (cost response);
     md_latency := Some (latency response);
     md_error := None;
     md_note := note |}.

(** [str(x)] of an optional text: [str(None)] is ["None"]. *)
Definition str_of (x : option string) : string := Py.get x "None".

Definition error_metadata (provider : string) (error_message : option string)
  : Metadata :=
  {| md_provider := provider;
     md_model := None;
     md_input_tokens := None;
     md_output_tokens := None;
     md_cost := None;
     md_latency := None;
     md_error := error_message;
     md_note := None |}.

(** [OpenAIService._error_result] *)
Definition openai_error_result (error_message : option string) : Result :=
  {| risk_score := Some (VNum (I 50));
     confidence := Some (VNum (F 0));
     explanation := VStr ("Error: " ++ str_of error_message);
     metadata := error_metadata "openai" error_message |}.

(** [GeminiService._error_result] *)
Definition gemini_error_result (error_message : option string) : Result :=
  {| risk_score := Some (VNum (I 50));
     confidence := Some (VNum (F 0));
     explanation := VStr ("Error: " ++ str_of error_message);
     metadata := error_metadata "gemini" error_message |}.

(** [GeminiService._text_fallback_result] *)
Definition _text_fallback_result (response : Response) (text : string)
  : Result :=
  {| risk_score := Some (VNum (I 50));
     confidence := Some (VNum (F 0.6));
     explanation := VStr text;
     metadata := response_metadata "gemini" response
                   (Some "JSON parsing failed, returning text response") |}.

(** [OpenAIService.analyze_risk], from the gateway response on.  The
    [try] block catches [json.JSONDecodeError] only: [json.loads(None)]
    raises [TypeError], and [.get] on a decoded value that is no
    dictionary raises [AttributeError]. *)
Definition analyze_risk (response : Response) : Exc Result :=
  if success response then
    match content response with
    | Some (_, Loaded risk_data) =>
        (score <- dict_get risk_data "risk_score" (VNum (I 50)) ;;
         conf <- dict_get risk_data "confidence" (VNum (F 0.5)) ;;
         text <- dict_get risk_data "reasoning" (VStr "No reasoning provided") ;;
         Ok {| risk_score := Some score;
               confidence := Some conf;
               explanation := text;
               metadata := response_metadata "openai" response None |})%exc
    | Some (raw, JSONDecodeError) =>
        Ok (openai_error_result (Some ("Invalid JSON response: " ++ raw)))
    | None => Raise "TypeError"
    end
  else Ok (openai_error_result (error response)).

(** [GeminiService.analyze_long_context], from the gateway response on.
    [None.strip()] raises [AttributeError]; the decoding is that of the
    text without its code fences. *)
Definition analyze_long_context (response : Response) : Exc Result :=
  if success response then
    match content response with
    | Some (_, Loaded analysis_data) =>
        (score <- dict_get analysis_data "risk_score" (VNum (I 50)) ;;
         conf <- dict_get analysis_data "confidence" (VNum (F 0.7)) ;;
         text <- dict_get analysis_data "detailed_analysis" (VStr "") ;;
         Ok {| risk_score := Some score;
               confidence := Some conf;
               explanation := text;
               metadata := response_metadata "gemini" response None |})%exc
    | Some (raw, JSONDecodeError) => Ok (_text_fallback_result response raw)
    | None => Raise "AttributeError"
    end
  else Ok (gemini_error_result (error response)).

(** *** The ensemble service *)

Record Metrics := {
  total_requests : Z;
  agreements : Z;
  disagreements : Z;
  escalations : Z;
  total_cost : float;
  total_latency : float
}.

Definition zero_metrics : Metrics :=
  {| total_requests := 0;
     agreements := 0;
     disagreements := 0;
     escalations := 0;
     total_cost := 0;
     total_latency := 0 |}.

Record EnsembleService := {
  deviation_threshold : number;
  metrics : Metrics
}.

(** [EnsembleService.__init__]:
    [deviation_threshold or float(os.getenv(..., "15"))]; [env_threshold]
    is the float the variable denotes when it is set. *)
Definition EnsembleService_init
    (deviation_threshold : option number) (env_threshold : option float)
  : EnsembleService :=
  {| deviation_threshold :=
       or_else deviation_threshold (F (Py.get env_threshold 15%float));
     metrics := zero_metrics |}.

Record Comparison := {
  openai_score : number;
  gemini_score : number;
  score_deviation : number;
  score_deviation_percent : number;
  openai_confidence : number;
  gemini_confidence : number;
  confidence_delta : number;
  agreement : bool;
  high_deviation : bool;
  avg_score : number;
  avg_confidence : number;
  cmp_deviation_threshold : number
}.

(** The operands of [a - b] on two values of a reply: the subtraction
    raises [TypeError] unless both are numbers. *)
Definition operands (a b : value) : Exc (number * number) :=
  match a, b with
  | VNum x, VNum y => Ok (x, y)
  | _, _ => Raise "TypeError"
  end.

(** [EnsembleService._compare_results].  Every value it stores has been
    an operand of a subtraction, so the comparison holds numbers. *)
Definition _compare_results (self : EnsembleService)
    (openai_result gemini_result : Result) : Exc Comparison :=
  let openai_score := Py.get (risk_score openai_result) (VNum (I 50)) in
  let gemini_score := Py.get (risk_score gemini_result) (VNum (I 50)) in
  ('(openai_score, gemini_score) <- operands openai_score gemini_score ;;
   score_difference <- sub openai_score gemini_score ;;
   let score_deviation := abs score_difference in
   score_fraction <- truediv score_deviation (I 100) ;;
   score_deviation_percent <- mul score_fraction (I 100) ;;
   let openai_confidence :=
     Py.get (confidence openai_result) (VNum (F 0.5)) in
   let gemini_confidence :=
     Py.get (confidence gemini_result) (VNum (F 0.5)) in
   '(openai_confidence, gemini_confidence) <-
     operands openai_confidence gemini_confidence ;;
   confidence_difference <- sub openai_confidence gemini_confidence ;;
   let confidence_delta := abs confidence_difference in
   let high_deviation := gt score_deviation (deviation_threshold self) in
   let agreement := negb high_deviation in
   score_sum <- add openai_score gemini_score ;;
   avg_score <- truediv score_sum (I 2) ;;
   confidence_sum <- add openai_confidence gemini_confidence ;;
   avg_confidence <- truediv confidence_sum (I 2) ;;
   Ok {| openai_score := openai_score;
         gemini_score := gemini_score;
         score_deviation := score_deviation;
         score_deviation_percent := score_deviation_percent;
         openai_confidence := openai_confidence;
         gemini_confidence := gemini_confidence;
         confidence_delta := confidence_delta;
         agreement := agreement;
         high_deviation := high_deviation;
         avg_score := avg_score;
         avg_confidence := avg_confidence;
         cmp_deviation_threshold := deviation_threshold self |})%exc.

(** The three reasoning templates of [_make_decision] with the values
    they interpolate. *)
Inductive Reasoning :=
| HighDeviationDetected (score_deviation openai_score gemini_score : number)
| ModelsInAgreement (score_deviation : number) (preferred_model : string)
    (confidence : number)
| ModerateDeviation (score_deviation final_score : number).

Record Decision := {
  decision_type : string;
  final_score : number;
  risk_level : string;
  decision_confidence : number;
  reasoning : Reasoning;
  requires_human_review : bool;
  model_agreement : bool
}.

(** The first half of [_make_decision]: the branch on the comparison,
    giving [(decision_type, final_score, confidence, reasoning)].  A
    reasoning text formats its numbers with [:.0f] or [:.2f], which
    raises on an integer too large for a float. *)
Definition decision_branch (comparison : Comparison)
  : Exc (string * number * number * Reasoning) :=
  if high_deviation comparison then
    (_ <- format_f (score_deviation comparison) ;;
     Ok ("ESCALATE",
         avg_score comparison,
         min (openai_confidence comparison) (gemini_confidence comparison),
         HighDeviationDetected (score_deviation comparison)
           (openai_score comparison) (gemini_score comparison)))%exc
  else if agreement comparison then
    let '(final_score, confidence, preferred_model) :=
      if gt (openai_confidence comparison) (gemini_confidence comparison)
      then (openai_score comparison, openai_confidence comparison, "OpenAI")
      else (gemini_score comparison, gemini_confidence comparison, "Gemini")
    in
    (_ <- format_f (score_deviation comparison) ;;
     _ <- format_f confidence ;;
     Ok ("CONSENSUS",
         final_score,
         confidence,
         ModelsInAgreement (score_deviation comparison) preferred_model
           confidence))%exc
  else
    (total_confidence <-
       add (openai_confidence comparison) (gemini_confidence comparison) ;;
     final_score <-
       (if gt total_confidence (I 0) then
          openai_weight <-
            truediv (openai_confidence comparison) total_confidence ;;
          gemini_weight <-
            truediv (gemini_confidence comparison) total_confidence ;;
          openai_part <- mul (openai_score comparison) openai_weight ;;
          gemini_part <- mul (gemini_score comparison) gemini_weight ;;
          add openai_part gemini_part
        else Ok (avg_score comparison)) ;;
     _ <- format_f (score_deviation comparison) ;;
     _ <- format_f final_score ;;
     Ok ("WEIGHTED_AVERAGE",
         final_score,
         avg_confidence comparison,
         ModerateDeviation (score_deviation comparison) final_score))%exc.

(** The risk band of [_make_decision]. *)
Definition risk_level_of (final_score : number) : string :=
  if ge final_score (I 80) then "CRITICAL"
  else if ge final_score (I 60) then "HIGH"
  else if ge final_score (I 40) then "MEDIUM"
  else "LOW".

(** [EnsembleService._make_decision]; it reads its two result arguments
    only through [comparison]. *)
Definition _make_decision (openai_result gemini_result : Result)
    (comparison : Comparison) : Exc Decision :=
  ('(decision_type, final_score, confidence, reasoning) <-
     decision_branch comparison ;;
   Ok {| decision_type := decision_type;
         final_score := round final_score 1;
         risk_level := risk_level_of final_score;
         decision_confidence := round confidence 2;
         reasoning := reasoning;
         requires_human_review := high_deviation comparison;
         model_agreement := agreement comparison |})%exc.

(** [result.get("metadata", {}).get("cost", 0)] *)
Definition cost_of (result : Result) : number :=
  match md_cost (metadata result) with
  | Some c => F c
  | None => I 0
  end.

(** [result.get("metadata", {}).get("latency", 0)] *)
Definition latency_of (result : Result) : number :=
  match md_latency (metadata result) with
  | Some l => F l
  | None => I 0
  end.

(** [EnsembleService._update_metrics].  The counters are updated before
    the totals; the additions are of floats and the integer 0. *)
Definition _update_metrics (self : EnsembleService)
    (openai_result gemini_result : Result) (comparison : Comparison)
  : Exc EnsembleService :=
  let m := metrics self in
  (cost <- add (cost_of openai_result) (cost_of gemini_result) ;;
   total_cost <- float_add (total_cost m) cost ;;
   total_latency <-
     float_add (total_latency m)
       (max (latency_of openai_result) (latency_of gemini_result)) ;;
   Ok {| deviation_threshold := deviation_threshold self;
         metrics :=
           {| total_requests := total_requests m + 1;
              agreements :=
                if agreement comparison then agreements m + 1
                else agreements m;
              disagreements :=
                if agreement comparison then disagreements m
                else disagreements m + 1;
              escalations :=
                if high_deviation comparison then escalations m + 1
                else escalations m;
              total_cost := total_cost;
              total_latency := total_latency |} |})%exc.

(** [EnsembleService.reset_metrics] *)
Definition reset_metrics (self : EnsembleService) : EnsembleService :=
  {| deviation_threshold := deviation_threshold self;
     metrics := zero_metrics |}.

Record Validation := {
  ensemble_decision : Decision;
  openai_result : Result;
  gemini_result : Result;
  comparison : Comparison;
  meta_total_cost : number;
  meta_total_latency : number
}.

(** [EnsembleService._parallel_analysis]: both coroutines call the
    synchronous service method; the first [await] that raises ends it. *)
Definition _parallel_analysis (openai_response gemini_response : Response)
  : Exc (Result * Result) :=
  (openai_result <- analyze_risk openai_response ;;
   gemini_result <- analyze_long_context gemini_response ;;
   Ok (openai_result, gemini_result))%exc.

(** [EnsembleService.analyze_with_validation].  [first] holds the
    gateway's responses to the OpenAI and Gemini calls of the parallel
    attempt, [fallback] its responses to the two calls the [except]
    clause makes when that attempt raised.  Nothing after the [except]
    clause is guarded. *)
Definition analyze_with_validation (self : EnsembleService)
    (first fallback : Response * Response)
  : Exc (EnsembleService * Validation) :=
  ('(openai_result, gemini_result) <-
     try_except
       (_parallel_analysis (fst first) (snd first))
       (openai_result <- analyze_risk (fst fallback) ;;
        gemini_result <- analyze_long_context (snd fallback) ;;
        Ok (openai_result, gemini_result)) ;;
   comparison <- _compare_results self openai_result gemini_result ;;
   decision <- _make_decision openai_result gemini_result comparison ;;
   self' <- _update_metrics self openai_result gemini_result comparison ;;
   total_cost <- add (cost_of openai_result) (cost_of gemini_result) ;;
   Ok (self',
       {| ensemble_decision := decision;
          openai_result := openai_result;
          gemini_result := gemini_result;
          comparison := comparison;
          meta_total_cost := total_cost;
          meta_total_latency :=
            max (latency_of openai_result) (latency_of gemini_result) |}))%exc.

(** The calls that touch [self.metrics]. *)
Inductive Call :=
| Analyze (first fallback : Response * Response)
| ResetMetrics.

(** The service after a call; a call that raises leaves it as it was at
    the point of the exception, which is before [_update_metrics]. *)
Definition call (self : EnsembleService) (c : Call) : EnsembleService :=
  match c with
  | Analyze first fallback =>
      match analyze_with_validation self first fallback with
      | Ok (self', _) => self'
      | Raise _ => self
      end
  | ResetMetrics => reset_metrics self
  end.

Definition calls (self : EnsembleService) (cs : list Call) : EnsembleService :=
  fold_left call cs self.

(** The decision the service reaches on two provider results. *)
Definition decide (self : EnsembleService) (o g : Result) : Exc Decision :=
  (comparison <- _compare_results self o g ;;
   _make_decision o g comparison)%exc.

Definition default_service : EnsembleService := EnsembleService_init None None.

(** A provider result with the given score and confidence. *)
Definition scored (provider : string) (score conf : number) : Result :=
  {| risk_score := Some (VNum score);
     confidence := Some (VNum conf);
     explanation := VStr "";
     metadata := {| md_provider := provider;
                    md_model := Some "model";
                    md_input_tokens := Some 120%Z;
                    md_output_tokens := Some 80%Z;
                    md_cost := Some 0.001%float;
                    md_latency := Some 0.5%float;
                    md_error := None;
                    md_note := None |} |}.

(** A successful gateway response whose reply decodes to the given
    value. *)
Definition reply_with (provider : string) (data : value) : Response :=
  {| success := true;
     content := Some ("...", Loaded data);
     input_tokens := 120;
     output_tokens := 80;
     cost := 0.001;
     model := "model";
     latency := 0.5;
     provider := provider;
     error := None |}.

(** A successful gateway response whose reply decodes to an object with
    the given score and confidence. *)
Definition reply (provider : string) (score conf : number) : Response :=
  reply_with provider
    (VDict [("risk_score", VNum score); ("confidence", VNum conf)]).

(** What [.get("cost", 0)] and [.get("latency", 0)] give on a metadata
    dictionary: a float or the integer 0. *)
Definition float_or_zero (x : number) : Prop :=
  (exists f, x = F f) \/ x = I 0.

(** The relation between the counters of [self.metrics]. *)
Definition metrics_consistent (m : Metrics) : Prop :=
  (agreements m + disagreements m = total_requests m)%Z
  /\ escalations m = disagreements m.

End Ensemble.

(** ** hashlib.sha256

    The digest of FIPS 180-4 on 32-bit words kept in [N]; a byte string is
    a [string] whose characters are the bytes. *)

Module Sha256.

Local Open Scope N_scope.

Definition mask32 : N := 0xffffffff.

Definition add32 (a b : N) : N := N.land (a + b) mask32.

Definition rotr (n x : N) : N :=
  N.lor (N.shiftr x n) (N.land (N.shiftl x (32 - n)) mask32).

Definition Ch (x y z : N) : N :=
  N.lxor (N.land x y) (N.land (N.lxor x mask32) z).

Definition Maj (x y z : N) : N :=
  N.lxor (N.lxor (N.land x y) (N.land x z)) (N.land y z).

Definition Sigma0 (x : N) : N :=
  N.lxor (N.lxor (rotr 2 x) (rotr 13 x)) (rotr 22 x).

Definition Sigma1 (x : N) : N :=
  N.lxor (N.lxor (rotr 6 x) (rotr 11 x)) (rotr 25 x).

Definition sigma0 (x : N) : N :=
  N.lxor (N.lxor (rotr 7 x) (rotr 18 x)) (N.shiftr x 3).

Definition sigma1 (x : N) : N :=
  N.lxor (N.lxor (rotr 17 x) (rotr 19 x)) (N.shiftr x 10).

(** The primes below [bound], by trial division. *)
Definition primes_below (bound : nat) : list N :=
  filter
    (fun p => forallb (fun d => negb (p mod d =? 0))
                (map N.of_nat (seq 2 (N.to_nat p - 2))))
    (map N.of_nat (seq 2 (bound - 2))).

(** The largest [r] with [r ^ 3 <= n], found bit by bit from bit [bits]
    down. *)
Fixpoint cube_root (bits : nat) (n r : N) : N :=
  match bits with
  | O => r
  | S bits' =>
      let candidate := r + N.shiftl 1 (N.of_nat bits') in
      if candidate * candidate * candidate <=? n
      then cube_root bits' n candidate
      else cube_root bits' n r
  end.

(** The round constants: the first 32 bits of the fractional parts of the
    cube roots of the first 64 primes. *)
Definition K : list N :=
  Eval vm_compute in
    map (fun p => N.land (cube_root 36 (N.shiftl p 96) 0) mask32)
      (primes_below 312).

(** The eight working words [a .. h]. *)
Record State := {
  wa : N; wb : N; wc : N; wd : N; we : N; wf : N; wg : N; wh : N
}.

(** The initial hash value: the first 32 bits of the fractional parts of
    the square roots of the first eight primes. *)
Definition H0 : State :=
  Eval vm_compute in
    let h (p : N) := N.land (N.sqrt (N.shiftl p 64)) mask32 in
    {| wa := h 2; wb := h 3; wc := h 5; wd := h 7;
       we := h 11; wf := h 13; wg := h 17; wh := h 19 |}.

(** Message schedule, most recent word first: [n] more words after the
    ones in [recent]. *)
Fixpoint extend (n : nat) (recent : list N) : list N :=
  match n with
  | O => recent
  | S n' =>
      let w := add32 (add32 (sigma1 (nth 1 recent 0)) (nth 6 recent 0))
                     (add32 (sigma0 (nth 14 recent 0)) (nth 15 recent 0)) in
      extend n' (w :: recent)
  end.

Definition schedule (block : list N) : list N :=
  rev (extend 48 (rev block)).

Definition round_step (s : State) (kw : N * N) : State :=
  let t1 := add32 (add32 (add32 (wh s) (Sigma1 (we s)))
                         (add32 (Ch (we s) (wf s) (wg s)) (fst kw)))
                  (snd kw) in
  let t2 := add32 (Sigma0 (wa s)) (Maj (wa s) (wb s) (wc s)) in
  {| wa := add32 t1 t2; wb := wa s; wc := wb s; wd := wc s;
     we := add32 (wd s) t1; wf := we s; wg := wf s; wh := wg s |}.

Definition compress (h : State) (block : list N) : State :=
  let s := fold_left round_step (combine K (schedule block)) h in
  {| wa := add32 (wa h) (wa s); wb := add32 (wb h) (wb s);
     wc := add32 (wc h) (wc s); wd := add32 (wd h) (wd s);
     we := add32 (we h) (we s); wf := add32 (wf h) (wf s);
     wg := add32 (wg h) (wg s); wh := add32 (wh h) (wh s) |}.

Definition bytes_of_string (s : string) : list N :=
  map N_of_ascii (list_ascii_of_string s).

(** Big-endian bytes of the low [8 * n] bits of [x]. *)
Fixpoint be_bytes (n : nat) (x : N) : list N :=
  match n with
  | O => []
  | S n' => N.land (N.shiftr x (8 * N.of_nat n')) 0xff :: be_bytes n' x
  end.

(** Padding: [0x80], zero bytes up to 56 modulo 64, the bit length on
    eight bytes. *)
Definition pad (message : list N) : list N :=
  let len := N.of_nat (List.length message) in
  let zeros := N.to_nat ((119 - len mod 64) mod 64) in
  message ++ [0x80] ++ repeat 0 zeros ++ be_bytes 8 (8 * len).

(** Big-endian words of a byte list, four bytes each. *)
Fixpoint words (fuel : nat) (bytes : list N) : list N :=
  match fuel, bytes with
  | S fuel', b0 :: b1 :: b2 :: b3 :: rest =>
      (N.shiftl b0 24 + N.shiftl b1 16 + N.shiftl b2 8 + b3)
        :: words fuel' rest
  | _, _ => []
  end.

(** The word list cut into blocks of sixteen and compressed in turn. *)
Fixpoint blocks (fuel : nat) (h : State) (ws : list N) : State :=
  match fuel, ws with
  | S fuel', _ :: _ => blocks fuel' (compress h (firstn 16 ws)) (skipn 16 ws)
  | _, _ => h
  end.

Definition hex_digit (n : N) : ascii :=
  if n <? 10 then ascii_of_N (48 + n) else ascii_of_N (87 + n).

(** Eight lowercase hexadecimal digits of a 32-bit word. *)
Definition hex8 (w : N) : string :=
  let d (i : N) := hex_digit (N.land (N.shiftr w (4 * i)) 0xf) in
  String (d 7) (String (d 6) (String (d 5) (String (d 4)
  (String (d 3) (String (d 2) (String (d 1) (String (d 0) EmptyString))))))).

Definition digest (message : list N) : State :=
  let padded := pad message in
  let ws := words (List.length padded) padded in
  blocks (List.length ws) H0 ws.

(** [hashlib.sha256(data).hexdigest()] *)
Definition hexdigest (data : string) : string :=
  let h := digest (bytes_of_string data) in
  (hex8 (wa h) ++ hex8 (wb h) ++ hex8 (wc h) ++ hex8 (wd h)
   ++ hex8 (we h) ++ hex8 (wf h) ++ hex8 (wg h) ++ hex8 (wh h))%string.

End Sha256.

(** ** json

    Python values as [json.loads] returns them.  A character of a [string]
    is the code point of the same number (below 256).  A float is kept as
    the text [json.dumps] writes for it.  The keys of a dictionary are
    distinct; [JDict] lists its items in insertion order. *)

Module Json.

#[local] Set Warnings "-register-all".

Inductive json :=
| JNull
| JBool (b : bool)
| JInt (z : Z)
| JFloat (repr : string)
| JStr (s : string)
| JList (items : list json)
| JDict (items : list (string * json)).

Definition quote : ascii := ascii_of_nat 34.
Definition backslash : ascii := ascii_of_nat 92.

Definition hex4 (n : N) : string :=
  let d (i : N) := Sha256.hex_digit (N.land (N.shiftr n (4 * i)) 0xf) in
  String (d 3%N) (String (d 2%N) (String (d 1%N) (String (d 0%N) ""))).

(** One character under [ensure_ascii]: the short escapes, the printable
    ASCII characters as they are, everything else as [\uXXXX]. *)
Definition escape_char (c : ascii) : string :=
  let n := N_of_ascii c in
  if Ascii.eqb c quote then String backslash (String quote "")
  else if Ascii.eqb c backslash then String backslash (String backslash "")
  else if (n =? 10)%N then String backslash "n"
  else if (n =? 13)%N then String backslash "r"
  else if (n =? 9)%N then String backslash "t"
  else if (n =? 8)%N then String backslash "b"
  else if (n =? 12)%N then String backslash "f"
  else if ((32 <=? n) && (n <=? 126))%N then String c ""
  else String backslash ("u" ++ hex4 n).

(** [json.encoder.py_encode_basestring_ascii] *)
Definition encode_basestring_ascii (s : string) : string :=
  String quote
    (concat "" (map escape_char (list_ascii_of_string s)) ++ String quote "").

(** [str(z)] *)
Definition str_of_Z (z : Z) : string :=
  match z with
  | Z0 => "0"
  | Zpos p => DecimalString.NilEmpty.string_of_uint (Pos.to_uint p)
  | Zneg p => String "-" (DecimalString.NilEmpty.string_of_uint (Pos.to_uint p))
  end.

Fixpoint insert_item (kv : string * string) (sorted : list (string * string))
  : list (string * string) :=
  match sorted with
  | [] => [kv]
  | h :: t =>
      if String.leb (fst kv) (fst h) then kv :: sorted
      else h :: insert_item kv t
  end.

(** [sorted(items)] on items with distinct keys (stable insertion sort). *)
Definition sort_items (items : list (string * string))
  : list (string * string) :=
  fold_right insert_item [] items.

(** [json.dumps(v, sort_keys=sort_keys)] with the default separators. *)
Fixpoint dumps (sort_keys : bool) (v : json) : string :=
  match v with
  | JNull => "null"
  | JBool true => "true"
  | JBool false => "false"
  | JInt z => str_of_Z z
  | JFloat repr => repr
  | JStr s => encode_basestring_ascii s
  | JList items =>
      "[" ++ concat ", " (map (dumps sort_keys) items) ++ "]"
  | JDict items =>
      let rendered :=
        map (fun kv => (fst kv, dumps sort_keys (snd kv))) items in
      let ordered := if sort_keys then sort_items rendered else rendered in
      "{" ++ concat ", "
               (map (fun kv => encode_basestring_ascii (fst kv)
                               ++ ": " ++ snd kv) ordered)
          ++ "}"
  end.

(** [str.encode()]: UTF-8 of code points below 256. *)
Definition encode (s : string) : string :=
  concat ""
    (map (fun c =>
            let n := N_of_ascii c in
            if (n <? 128)%N then String c ""
            else String (ascii_of_N (192 + N.shiftr n 6))
                   (String (ascii_of_N (128 + N.land n 63)) ""))
         (list_ascii_of_string s)).

Fixpoint lookup (key : string) (items : list (string * json)) : option json :=
  match items with
  | [] => None
  | (k, v) :: rest => if String.eqb k key then Some v else lookup key rest
  end.

(** [data[key]]: [KeyError] on a dictionary without the key, [TypeError]
    on a value that is no dictionary. *)
Definition getitem (data : json) (key : string) : Exc json :=
  match data with
  | JDict items =>
      match lookup key items with
      | Some v => Ok v
      | None => Raise "KeyError"
      end
  | _ => Raise "TypeError"
  end.

(** [items] after [d[key] = value]. *)
Fixpoint assign (key : string) (value : json) (items : list (string * json))
  : list (string * json) :=
  match items with
  | [] => [(key, value)]
  | (k, v) :: rest =>
      if String.eqb k key then (k, value) :: rest
      else (k, v) :: assign key value rest
  end.

(** [a == b], structurally.  This is Python's answer whenever one side is
    a string, the case of every comparison the audit logger makes on a log
    it wrote itself; Python's cross-type equality of numbers and the
    order-insensitive equality of dictionaries are not modelled. *)
Fixpoint eqb (a b : json) : bool :=
  match a, b with
  | JNull, JNull => true
  | JBool x, JBool y => Bool.eqb x y
  | JInt x, JInt y => Z.eqb x y
  | JFloat x, JFloat y => String.eqb x y
  | JStr x, JStr y => String.eqb x y
  | JList xs, JList ys =>
      (fix all2 (xs ys : list json) : bool :=
         match xs, ys with
         | [], [] => true
         | x :: xs', y :: ys' => eqb x y && all2 xs' ys'
         | _, _ => false
         end) xs ys
  | JDict xs, JDict ys =>
      (fix all2 (xs ys : list (string * json)) : bool :=
         match xs, ys with
         | [], [] => true
         | (k, x) :: xs', (l, y) :: ys' =>
             String.eqb k l && eqb x y && all2 xs' ys'
         | _, _ => false
         end) xs ys
  | _, _ => false
  end.

End Json.

(** ** app/utils/audit_logger.py *)

Module Audit.

Import Json.

Inductive AuditEventType :=
| LLM_REQUEST
| LLM_RESPONSE
| ROUTING_DECISION
| ENSEMBLE_VALIDATION
| RATE_LIMIT_HIT
| BUDGET_LIMIT_HIT
| USER_ACTION
| SYSTEM_EVENT
| SECURITY_EVENT
| COMPLIANCE_CHECK.

(** The string a member of the [str] enumeration is; [json.dumps] writes
    the member as this string. *)
Definition AuditEventType_value (t : AuditEventType) : string :=
  match t with
  | LLM_REQUEST => "llm_request"
  | LLM_RESPONSE => "llm_response"
  | ROUTING_DECISION => "routing_decision"
  | ENSEMBLE_VALIDATION => "ensemble_validation"
  | RATE_LIMIT_HIT => "rate_limit_hit"
  | BUDGET_LIMIT_HIT => "budget_limit_hit"
  | USER_ACTION => "user_action"
  | SYSTEM_EVENT => "system_event"
  | SECURITY_EVENT => "security_event"
  | COMPLIANCE_CHECK => "compliance_check"
  end.

Inductive AuditSeverity :=
| DEBUG
| INFO
| WARNING
| ERROR
| CRITICAL.

Definition AuditSeverity_value (s : AuditSeverity) : string :=
  match s with
  | DEBUG => "debug"
  | INFO => "info"
  | WARNING => "warning"
  | ERROR => "error"
  | CRITICAL => "critical"
  end.

(** What one call reads from outside: the local date
    ([datetime.now().strftime("%Y%m%d")]), the UTC time in milliseconds and
    in ISO format ([datetime.utcnow()]), and [os.urandom(4).hex()]. *)
Record Now := {
  date_str : string;
  timestamp_ms : Z;
  utc_isoformat : string;
  random_suffix : string
}.

(** The attributes of an [AuditEvent] object.  [from_dict] stores whatever
    the dictionary holds, so each attribute is a Python value. *)
Record AuditEvent := {
  event_id : json;
  timestamp : json;
  event_type : json;
  severity : json;
  user_id : json;
  action : json;
  details : json;
  previous_hash : json;
  hash : json
}.

(** [AuditEvent._generate_event_id] *)
Definition _generate_event_id (now : Now) : string :=
  "AUD-" ++ str_of_Z (timestamp_ms now) ++ "-" ++ random_suffix now.

(** [AuditEvent._calculate_hash] *)
Definition _calculate_hash (self : AuditEvent) : string :=
  let data :=
    JDict [ ("event_id", event_id self);
            ("timestamp", timestamp self);
            ("event_type", event_type self);
            ("severity", severity self);
            ("user_id", user_id self);
            ("action", action self);
            ("details", details self);
            ("previous_hash", previous_hash self) ] in
  let json_str := dumps true data in
  Sha256.hexdigest (encode json_str).

(** [AuditEvent.__init__] *)
Definition AuditEvent_init (now : Now)
    (event_type severity user_id action details previous_hash : json)
  : AuditEvent :=
  let self :=
    {| event_id := JStr (_generate_event_id now);
       timestamp := JStr (utc_isoformat now ++ "Z");
       event_type := event_type;
       severity := severity;
       user_id := user_id;
       action := action;
       details := details;
       previous_hash := previous_hash;
       hash := JNull |} in
  {| event_id := event_id self;
     timestamp := timestamp self;
     event_type := event_type;
     severity := severity;
     user_id := user_id;
     action := action;
     details := details;
     previous_hash := previous_hash;
     hash := JStr (_calculate_hash self) |}.

(** [AuditEvent.to_dict] *)
Definition to_dict (self : AuditEvent) : json :=
  JDict [ ("event_id", event_id self);
          ("timestamp", timestamp self);
          ("event_type", event_type self);
          ("severity", severity self);
          ("user_id", user_id self);
          ("action", action self);
          ("details", details self);
          ("previous_hash", previous_hash self);
          ("hash", hash self) ].

(** [AuditEvent.from_dict]: the constructor runs on six of the saved
    values (reading the clock for a fresh identifier and timestamp and
    computing a hash), then the three remaining attributes, [hash]
    included, are overwritten with the saved ones. *)
Definition from_dict (now : Now) (data : json) : Exc AuditEvent :=
  (event_type <- getitem data "event_type" ;;
   severity <- getitem data "severity" ;;
   user_id <- getitem data "user_id" ;;
   action <- getitem data "action" ;;
   details <- getitem data "details" ;;
   previous_hash <- getitem data "previous_hash" ;;
   let event :=
     AuditEvent_init now event_type severity user_id action details
       previous_hash in
   saved_event_id <- getitem data "event_id" ;;
   saved_timestamp <- getitem data "timestamp" ;;
   saved_hash <- getitem data "hash" ;;
   Ok {| event_id := saved_event_id;
         timestamp := saved_timestamp;
         event_type := Audit.event_type event;
         severity := Audit.severity event;
         user_id := Audit.user_id event;
         action := Audit.action event;
         details := Audit.details event;
         previous_hash := Audit.previous_hash event;
         hash := saved_hash |})%exc.

(** *** The log directory *)

(** A line of a segment file, kept as what [json.loads] makes of it: the
    document it holds, or a [JSONDecodeError]. *)
Inductive Line :=
| Doc (data : json)
| Garbage (raw : string).

Definition loads (line : Line) : Exc json :=
  match line with
  | Doc data => Ok data
  | Garbage _ => Raise "JSONDecodeError"
  end.

(** The files of [log_dir]: name and lines. *)
Definition Dir := list (string * list Line).

Fixpoint read_file (fs : Dir) (name : string) : option (list Line) :=
  match fs with
  | [] => None
  | (n, lines) :: rest =>
      if String.eqb n name then Some lines else read_file rest name
  end.

(** [open(name, 'a')] followed by the writes and the close. *)
Fixpoint append_file (fs : Dir) (name : string) (new_lines : list Line) : Dir :=
  match fs with
  | [] => [(name, new_lines)]
  | (n, lines) :: rest =>
      if String.eqb n name then (n, (lines ++ new_lines)%list) :: rest
      else (n, lines) :: append_file rest name new_lines
  end.

Definition ends_with (suffix s : string) : bool :=
  let n := String.length s in
  let k := String.length suffix in
  (k <=? n)%nat && String.eqb (substring (n - k) k s) suffix.

(** The pattern ["audit_*.jsonl"]. *)
Definition matches_pattern (name : string) : bool :=
  (12 <=? String.length name)%nat
  && prefix "audit_" name && ends_with ".jsonl" name.

Fixpoint insert_file (f : string * list Line) (sorted : Dir) : Dir :=
  match sorted with
  | [] => [f]
  | h :: t =>
      if String.leb (fst f) (fst h) then f :: sorted
      else h :: insert_file f t
  end.

(** [sorted(self.log_dir.glob("audit_*.jsonl"))], each path with the lines
    the file holds. *)
Definition log_files (fs : Dir) : Dir :=
  fold_right insert_file []
    (filter (fun f => matches_pattern (fst f)) fs).

(** *** The logger *)

Record AuditLogger := {
  current_log_file : string;
  last_hash : json;
  events_buffer : list AuditEvent;
  buffer_size : nat
}.

Definition log_file_name (date_str : string) : string :=
  "audit_" ++ date_str ++ ".jsonl".

(** [AuditLogger._load_last_hash] *)
Definition _load_last_hash (self : AuditLogger) (fs : Dir) : AuditLogger :=
  match read_file fs (current_log_file self) with
  | Some lines =>
      match lines with
      | [] => self
      | _ :: _ =>
          match (last_event <- loads (last lines (Garbage "")) ;;
                 getitem last_event "hash")%exc with
          | Ok h =>
              {| current_log_file := current_log_file self;
                 last_hash := h;
                 events_buffer := events_buffer self;
                 buffer_size := buffer_size self |}
          | Raise _ =>
              {| current_log_file := current_log_file self;
                 last_hash := JStr "0";
                 events_buffer := events_buffer self;
                 buffer_size := buffer_size self |}
          end
      end
  | None => self
  end.

(** [AuditLogger.__init__] with [_initialize_log_file]. *)
Definition AuditLogger_init (now : Now) (fs : Dir) : AuditLogger :=
  _load_last_hash
    {| current_log_file := log_file_name (date_str now);
       last_hash := JStr "0";
       events_buffer := [];
       buffer_size := 100 |}
    fs.

(** [AuditLogger._flush_buffer]: one line per buffered event, the
    [json.dumps] of its [to_dict]. *)
Definition _flush_buffer (self : AuditLogger) (fs : Dir) : AuditLogger * Dir :=
  match events_buffer self with
  | [] => (self, fs)
  | _ :: _ =>
      ({| current_log_file := current_log_file self;
          last_hash := last_hash self;
          events_buffer := [];
          buffer_size := buffer_size self |},
       append_file fs (current_log_file self)
         (map (fun event => Doc (to_dict event)) (events_buffer self)))
  end.

(** [AuditLogger.log_event] *)
Definition log_event (self : AuditLogger) (fs : Dir) (now : Now)
    (event_type : AuditEventType) (user_id action : string) (details : json)
    (severity : AuditSeverity)
  : AuditLogger * Dir * AuditEvent :=
  let expected_file := log_file_name (date_str now) in
  let '(self, fs) :=
    if negb (String.eqb expected_file (current_log_file self)) then
      let '(flushed, fs') := _flush_buffer self fs in
      ({| current_log_file := expected_file;
          last_hash := JStr "0";
          events_buffer := events_buffer flushed;
          buffer_size := buffer_size flushed |}, fs')
    else (self, fs) in
  let event :=
    AuditEvent_init now
      (JStr (AuditEventType_value event_type))
      (JStr (AuditSeverity_value severity))
      (JStr user_id) (JStr action) details (last_hash self) in
  let self :=
    {| current_log_file := current_log_file self;
       last_hash := hash event;
       events_buffer := (events_buffer self ++ [event])%list;
       buffer_size := buffer_size self |} in
  if (buffer_size self <=? List.length (events_buffer self))%nat then
    let '(self, fs) := _flush_buffer self fs in (self, fs, event)
  else (self, fs, event).

(** *** Chain verification *)

(** An entry of [broken_chains]. *)
Inductive Broken :=
| PreviousHashMismatch (file : string) (line : nat) (event_id : json)
    (expected_previous_hash actual_previous_hash : json)
| HashMismatch (file : string) (line : nat) (event_id : json)
| ParseError (file : string) (line : nat) (exception : string).

Definition broken_file (b : Broken) : string :=
  match b with
  | PreviousHashMismatch f _ _ _ _ => f
  | HashMismatch f _ _ => f
  | ParseError f _ _ => f
  end.

Definition broken_line (b : Broken) : nat :=
  match b with
  | PreviousHashMismatch _ n _ _ _ => n
  | HashMismatch _ n _ => n
  | ParseError _ n _ => n
  end.

(** The local variables of [verify_chain_integrity]. *)
Record Walk := {
  total_events : nat;
  verified_events : nat;
  broken_chains : list Broken;
  walk_previous_hash : json
}.

(** The body of the [try] block runs on the local variables and may stop
    with an exception; what it changed before stays changed. *)
Definition Try (A : Type) : Type := Walk -> Walk * Exc A.

Definition ret {A} (a : A) : Try A := fun w => (w, Ok a).

Definition then_ {A B} (m : Try A) (k : A -> Try B) : Try B :=
  fun w =>
    match m w with
    | (w', Ok a) => k a w'
    | (w', Raise e) => (w', Raise e)
    end.

Definition eval {A} (m : Exc A) : Try A := fun w => (w, m).

Definition update (f : Walk -> Walk) : Try unit := fun w => (f w, Ok tt).

Declare Scope try_scope.
Delimit Scope try_scope with try.
Notation "x <- m ;; k" := (then_ m (fun x => k))
  (at level 61, m at next level, right associativity) : try_scope.
Notation "m ;; k" := (then_ m (fun _ => k))
  (at level 61, right associativity) : try_scope.

Definition count_event (w : Walk) : Walk :=
  {| total_events := S (total_events w);
     verified_events := verified_events w;
     broken_chains := broken_chains w;
     walk_previous_hash := walk_previous_hash w |}.

Definition count_verified (w : Walk) : Walk :=
  {| total_events := total_events w;
     verified_events := S (verified_events w);
     broken_chains := broken_chains w;
     walk_previous_hash := walk_previous_hash w |}.

Definition report_broken (b : Broken) (w : Walk) : Walk :=
  {| total_events := total_events w;
     verified_events := verified_events w;
     broken_chains := (broken_chains w ++ [b])%list;
     walk_previous_hash := walk_previous_hash w |}.

Definition set_previous_hash (h : json) (w : Walk) : Walk :=
  {| total_events := total_events w;
     verified_events := verified_events w;
     broken_chains := broken_chains w;
     walk_previous_hash := h |}.

(** The [try] block of the inner loop. *)
Definition check_line_body (now : Now) (file : string) (line_num : nat)
    (line : Line) : Try unit :=
  (data <- eval (loads line) ;;
   update count_event ;;
   (* Verify previous hash *)
   actual <- eval (getitem data "previous_hash") ;;
   (fun w =>
      (if negb (eqb actual (walk_previous_hash w)) then
         (saved_event_id <- eval (getitem data "event_id") ;;
          actual_previous_hash <- eval (getitem data "previous_hash") ;;
          update (report_broken
                    (PreviousHashMismatch file line_num saved_event_id
                       (walk_previous_hash w) actual_previous_hash)))
       else update count_verified) w) ;;
   (* Verify event hash *)
   event <- eval (from_dict now data) ;;
   saved_hash <- eval (getitem data "hash") ;;
   (if negb (eqb (hash event) saved_hash) then
      (saved_event_id <- eval (getitem data "event_id") ;;
       update (report_broken (HashMismatch file line_num saved_event_id)))
    else ret tt) ;;
   new_previous_hash <- eval (getitem data "hash") ;;
   update (set_previous_hash new_previous_hash))%try.

(** One iteration of the inner loop: the [try] block and its
    [except Exception] clause. *)
Definition check_line (now : Now) (file : string) (w : Walk)
    (numbered : nat * Line) : Walk :=
  match check_line_body now file (fst numbered) (snd numbered) w with
  | (w', Ok _) => w'
  | (w', Raise e) => report_broken (ParseError file (fst numbered) e) w'
  end.

(** [enumerate(f, 1)] *)
Definition enumerate1 {A} (l : list A) : list (nat * A) :=
  combine (seq 1 (List.length l)) l.

(** The inner loop over one file. *)
Definition check_file (now : Now) (w : Walk) (f : string * list Line) : Walk :=
  fold_left (check_line now (fst f)) (enumerate1 (snd f)) w.

Record Report := {
  report_total_events : nat;
  report_verified_events : nat;
  integrity_percentage : Q;
  report_broken_chains : list Broken;
  intact : bool
}.

(** [AuditLogger.verify_chain_integrity].  One clock reading serves the
    constructor calls of every [from_dict]; what they produce is
    overwritten. *)
Definition verify_chain_integrity (self : AuditLogger) (fs : Dir) (now : Now)
  : AuditLogger * Dir * Report :=
  let '(self, fs) := _flush_buffer self fs in
  let start :=
    {| total_events := 0;
       verified_events := 0;
       broken_chains := [];
       walk_previous_hash := JStr "0" |} in
  let w := fold_left (check_file now) (log_files fs) start in
  (self, fs,
   {| report_total_events := total_events w;
      report_verified_events := verified_events w;
      integrity_percentage :=
        if (0 <? total_events w)%nat then
          inject_Z (Z.of_nat (verified_events w))
          / inject_Z (Z.of_nat (total_events w)) * 100
        else 0;
      report_broken_chains := broken_chains w;
      intact := (List.length (broken_chains w) =? 0)%nat |}).

(** *** Scenarios of use *)

(** The arguments of one [log_event] call with what it reads from outside. *)
Record Entry := {
  entry_now : Now;
  entry_event_type : AuditEventType;
  entry_user_id : string;
  entry_action : string;
  entry_details : json;
  entry_severity : AuditSeverity
}.

Definition log_entry (state : AuditLogger * Dir) (e : Entry)
  : AuditLogger * Dir :=
  fst (log_event (fst state) (snd state) (entry_now e) (entry_event_type e)
         (entry_user_id e) (entry_action e) (entry_details e)
         (entry_severity e)).

(** A sequence of [log_event] calls. *)
Definition log_entries (state : AuditLogger * Dir) (entries : list Entry)
  : AuditLogger * Dir :=
  fold_left log_entry entries state.

(** A fresh logger on an empty directory. *)
Definition empty_log (now : Now) : AuditLogger * Dir :=
  (AuditLogger_init now [], []).

(** The report of [verify_chain_integrity]. *)
Definition verify (state : AuditLogger * Dir) (now : Now) : Report :=
  snd (verify_chain_integrity (fst state) (snd state) now).

(** Editing storage by hand: the value under ["details"] of a stored
    document is replaced, nothing else of the line is touched. *)
Definition alter_details (new_details : json) (line : Line) : Line :=
  match line with
  | Doc (JDict items) => Doc (JDict (assign "details" new_details items))
  | other => other
  end.

Fixpoint alter_nth {A} (f : A -> A) (n : nat) (l : list A) : list A :=
  match l, n with
  | [], _ => []
  | x :: rest, O => f x :: rest
  | x :: rest, S n' => x :: alter_nth f n' rest
  end.

Definition tamper_file (name : string) (line_num : nat) (new_details : json)
    (f : string * list Line) : string * list Line :=
  if String.eqb (fst f) name
  then (fst f, alter_nth (alter_details new_details) (pred line_num) (snd f))
  else f.

(** The directory after line [line_num] (counted from 1) of file [name]
    had its details altered. *)
Definition tamper_details (fs : Dir) (name : string) (line_num : nat)
    (new_details : json) : Dir :=
  map (tamper_file name line_num new_details) fs.

(** *** Chains and segments *)

(** The line [_flush_buffer] writes for an event. *)
Definition line_of (e : AuditEvent) : Line := Doc (to_dict e).

(** [linked prev events last]: each event names the hash of the one
    before it, the first one names [prev], and [last] is the hash of the
    last one ([prev] when there is none). *)
Inductive linked : string -> list AuditEvent -> string -> Prop :=
| linked_nil (prev : string) : linked prev [] prev
| linked_cons (prev h last : string) (e : AuditEvent) (rest : list AuditEvent) :
    previous_hash e = JStr prev ->
    hash e = JStr h ->
    String.length h = 64%nat ->
    linked h rest last ->
    linked prev (e :: rest) last.

(** The directory holding the stored events of one segment file. *)
Definition dir_of (file : string) (stored : list AuditEvent) : Dir :=
  match stored with
  | [] => []
  | _ :: _ => [(file, map line_of stored)]
  end.

(** No file of [older] has the name [file]. *)
Definition absent (file : string) (older : Dir) : Prop :=
  Forall (fun f => String.eqb (fst f) file = false) older.

(** The logger is writing the segment [file] next to the closed segments
    [older]: it has written [events], a chain from the sentinel ending in
    [last], to [file]; a first part is stored, the rest is in the
    buffer. *)
Record segment (older : Dir) (file : string) (state : AuditLogger * Dir)
    (events : list AuditEvent) (last : string) : Prop := {
  seg_file : current_log_file (fst state) = file;
  seg_split :
    exists stored,
      events = (stored ++ events_buffer (fst state))%list
      /\ snd state = (older ++ dir_of file stored)%list;
  seg_linked : linked "0" events last;
  seg_last : last_hash (fst state) = JStr last;
  seg_absent : absent file older
}.

(** The state [log_event] works on after it saw a new day: the buffer is
    flushed to the old file, the new file is current and the chain starts
    again from the sentinel. *)
Definition rotated (self : AuditLogger) (fs : Dir) (d : string)
  : AuditLogger * Dir :=
  ({| current_log_file := log_file_name d;
      last_hash := JStr "0";
      events_buffer := events_buffer (fst (_flush_buffer self fs));
      buffer_size := buffer_size (fst (_flush_buffer self fs)) |},
   snd (_flush_buffer self fs)).

(** A stored line that is an object has the key ["details"]. *)
Definition has_details (line : Line) : Prop :=
  match line with
  | Doc (JDict items) => lookup "details" items <> None
  | _ => True
  end.

(** [e] with another value under [details]. *)
Definition with_details (new_details : json) (e : AuditEvent) : AuditEvent :=
  {| event_id := event_id e;
     timestamp := timestamp e;
     event_type := event_type e;
     severity := severity e;
     user_id := user_id e;
     action := action e;
     details := new_details;
     previous_hash := previous_hash e;
     hash := hash e |}.

(** *** Sample inputs *)

Definition monday_10h : Now :=
  {| date_str := "20240101";
     timestamp_ms := 1704103200000;
     utc_isoformat := "2024-01-01T10:00:00.000001";
     random_suffix := "0a1b2c3d" |}.

Definition monday_11h : Now :=
  {| date_str := "20240101";
     timestamp_ms := 1704106800000;
     utc_isoformat := "2024-01-01T11:00:00.000001";
     random_suffix := "11223344" |}.

Definition tuesday_10h : Now :=
  {| date_str := "20240102";
     timestamp_ms := 1704189600000;
     utc_isoformat := "2024-01-02T10:00:00.000001";
     random_suffix := "deadbeef" |}.

Definition approval (now : Now) (amount : Z) : Entry :=
  {| entry_now := now;
     entry_event_type := USER_ACTION;
     entry_user_id := "alice";
     entry_action := "approve";
     entry_details := JDict [("amount", JInt amount)];
     entry_severity := INFO |}.

(** The state after a flush: what [verify_chain_integrity] leaves. *)
Definition persisted (state : AuditLogger * Dir) (now : Now)
  : AuditLogger * Dir :=
  fst (verify_chain_integrity (fst state) (snd state) now).

End Audit.

Arguments Audit._calculate_hash : simpl never.

(** * Properties *)

(** ** Comparison and rounding *)

Lemma gt_true_iff (a b : Q) : Py.gt a b = true <-> b < a.
Proof.
  unfold Py.gt. rewrite negb_true_iff. split.
  - intros H. apply Qnot_le_lt. intros Hle.
    apply Qle_bool_iff in Hle. congruence.
  - intros H. destruct (Qle_bool a b) eqn:E; [|reflexivity].
    apply Qle_bool_iff in E. exfalso. exact (Qlt_not_le _ _ H E).
Qed.

Lemma gt_false_iff (a b : Q) : Py.gt a b = false <-> a <= b.
Proof.
  unfold Py.gt. rewrite negb_false_iff. apply Qle_bool_iff.
Qed.

(** [round_half_even] returns one of the two integers around its argument,
    the nearer one. *)
Lemma round_half_even_close (x : Q) :
  Qabs (inject_Z (Py.round_half_even x) - x) <= 1 # 2.
Proof.
  unfold Py.round_half_even.
  pose proof (Qfloor_le x) as Hlo. pose proof (Qlt_floor x) as Hhi.
  rewrite inject_Z_plus in Hhi. change (inject_Z 1) with 1 in Hhi.
  set (f := Qfloor x) in *.
  assert (Hup : Qabs (inject_Z (f + 1) - x) <= 1 # 2 <-> 1 # 2 <= x - inject_Z f).
  { rewrite inject_Z_plus. change (inject_Z 1) with 1. split; intros H.
    - apply Qabs_Qle_condition in H. destruct H as [_ H]. lra.
    - apply Qabs_Qle_condition. split; lra. }
  assert (Hdn : Qabs (inject_Z f - x) <= 1 # 2 <-> x - inject_Z f <= 1 # 2).
  { split; intros H.
    - apply Qabs_Qle_condition in H. destruct H as [H _]. lra.
    - apply Qabs_Qle_condition. split; lra. }
  destruct (Py.gt (1 # 2) (x - inject_Z f)) eqn:E1.
  - apply gt_true_iff in E1. apply Hdn. lra.
  - apply gt_false_iff in E1.
    destruct (Py.gt (x - inject_Z f) (1 # 2)) eqn:E2.
    + apply Hup. exact E1.
    + apply gt_false_iff in E2. destruct (Z.even f).
      * apply Hdn. exact E2.
      * apply Hup. exact E1.
Qed.

(** An integer is its own rounding. *)
Lemma round_half_even_integer (z : Z) : Py.round_half_even (inject_Z z) = z.
Proof.
  unfold Py.round_half_even. rewrite Qfloor_Z.
  assert (E : Py.gt (1 # 2) (inject_Z z - inject_Z z) = true).
  { apply gt_true_iff. lra. }
  rewrite E. reflexivity.
Qed.

Lemma round_half_even_proper (x y : Q) :
  x == y -> Py.round_half_even x = Py.round_half_even y.
Proof.
  intros H. unfold Py.round_half_even, Py.gt.
  rewrite (Qfloor_comp _ _ H).
  assert (E : x - inject_Z (Qfloor y) == y - inject_Z (Qfloor y))
    by (rewrite H; reflexivity).
  rewrite (Qleb_comp _ _ (Qeq_refl (1 # 2)) _ _ E).
  rewrite (Qleb_comp _ _ E _ _ (Qeq_refl (1 # 2))).
  reflexivity.
Qed.

(** ** hashlib.sha256 on known digests *)

Example sha256_constants :
  List.length Sha256.K = 64%nat
  /\ hd 0%N Sha256.K = 0x428a2f98%N
  /\ last Sha256.K 0%N = 0xc67178f2%N
  /\ Sha256.wa Sha256.H0 = 0x6a09e667%N
  /\ Sha256.wh Sha256.H0 = 0x5be0cd19%N.
Proof. repeat split. Qed.

Example sha256_abc :
  Sha256.hexdigest "abc"
  = "ba7816bf8f01cfea414140de5dae2223b00361a396177a9cb410ff61f20015ad".
Proof. vm_compute. reflexivity. Qed.

Example sha256_empty :
  Sha256.hexdigest ""
  = "e3b0c44298fc1c149afbf4c8996fb92427ae41e4649b934ca495991b7852b855".
Proof. vm_compute. reflexivity. Qed.

(** A message longer than one block. *)
Example sha256_two_blocks :
  Sha256.hexdigest
    "aaaaaaaaaaaaaaaaaaaaaaaaaaaaaaaaaaaaaaaaaaaaaaaaaaaaaaaaaaaaaaaaaaaaaa"
  = "6bd5e5034855a11241f0dee8fc72850ffd9955b28347a86428b5fa19119f6ad0".
Proof. vm_compute. reflexivity. Qed.

(** The hexadecimal digest has 64 characters. *)
Lemma hexdigest_length (data : string) :
  String.length (Sha256.hexdigest data) = 64%nat.
Proof.
  unfold Sha256.hexdigest.
  set (h := Sha256.digest _). clearbody h.
  assert (L : forall s t, String.length (s ++ t)
                          = (String.length s + String.length t)%nat).
  { induction s as [|c s IH]; intros t; cbn; [reflexivity|].
    rewrite IH. reflexivity. }
  rewrite !L. reflexivity.
Qed.

(** ** Routing policy *)

Module RouterProps.

Import Router.

(** The rules in the order [route] tries them. *)
Lemma route_cases (self : LLMRouter) (task : Task) :
  route self task =
    if requires_strict_json task then "openai"
    else if (context_length_threshold self <? context_length task)%Z
         then "gemini"
    else if multi_document task then "gemini"
    else if Py.gt (business_impact task) (business_impact_threshold self)
         then "ensemble"
    else "openai".
Proof.
  unfold route. rewrite Z.gtb_ltb. reflexivity.
Qed.

(** C8.  A task that requires strict JSON goes to the primary provider
    ["openai"], whatever its context length, multi-document flag, business
    impact or task type, and whatever the thresholds. *)
Theorem route_strict_json_is_openai (self : LLMRouter) (task : Task) :
  requires_strict_json task = true -> route self task = "openai".
Proof.
  intros H. unfold route. rewrite H. reflexivity.
Qed.

Lemma route_strict_json_is_openai_witness :
  requires_strict_json (sample_task true 100000 true (95 # 100)) = true
  /\ route default_router (sample_task true 100000 true (95 # 100)) = "openai".
Proof.
  split; [reflexivity|].
  apply (route_strict_json_is_openai default_router
           (sample_task true 100000 true (95 # 100))).
  reflexivity.
Defined.

(** C7, as stated, fails on its first half: a task whose context length
    equals the threshold and which is multi-document is sent to the
    secondary provider by rule 3. *)
Lemma route_context_boundary_multi_document_is_gemini :
  let task := sample_task false 80000 true (5 # 10) in
  Task_valid task
  /\ context_length task = context_length_threshold default_router
  /\ route default_router task = "gemini".
Proof.
  cbv zeta. split; [|split]; try reflexivity.
  unfold Task_valid; cbn. repeat split; try lia; try lra.
Qed.

(** C7, amended.  The comparisons are strict: a context length equal to
    the threshold does not fire the long-context rule, so such a task is
    routed as the later rules say, to the secondary provider only when it
    is multi-document; and a business impact equal to the threshold never
    selects ["ensemble"]. *)
Theorem route_boundary_is_strict (self : LLMRouter) (task : Task) :
  (context_length task = context_length_threshold self ->
   multi_document task = false ->
   route self task <> "gemini")
  /\ (context_length task = context_length_threshold self ->
      multi_document task = true ->
      requires_strict_json task = false ->
      route self task = "gemini")
  /\ (business_impact task == business_impact_threshold self ->
      route self task <> "ensemble").
Proof.
  rewrite route_cases. repeat split.
  - intros Hc Hm. rewrite Hc, Z.ltb_irrefl, Hm.
    destruct (requires_strict_json task); [discriminate|].
    destruct (Py.gt _ _); discriminate.
  - intros Hc Hm Hs. rewrite Hs, Hc, Z.ltb_irrefl, Hm. reflexivity.
  - intros Hb.
    assert (E : Py.gt (business_impact task) (business_impact_threshold self)
                = false).
    { apply gt_false_iff. rewrite Hb. apply Qle_refl. }
    rewrite E.
    destruct (requires_strict_json task); [discriminate|].
    destruct (_ <? _)%Z; [discriminate|].
    destruct (multi_document task); discriminate.
Qed.

Lemma route_boundary_is_strict_witness :
  route default_router (sample_task false 80000 false (5 # 10)) <> "gemini"
  /\ route default_router (sample_task false 80000 true (5 # 10)) = "gemini"
  /\ route default_router (sample_task false 1000 false (8 # 10)) <> "ensemble".
Proof.
  split; [|split].
  - apply (proj1 (route_boundary_is_strict default_router
                    (sample_task false 80000 false (5 # 10))));
      reflexivity.
  - apply (proj1 (proj2 (route_boundary_is_strict default_router
                           (sample_task false 80000 true (5 # 10)))));
      reflexivity.
  - apply (proj2 (proj2 (route_boundary_is_strict default_router
                           (sample_task false 1000 false (8 # 10))))).
    reflexivity.
Defined.

(** The two boundary cases of [tests/test_router.py] go to ["openai"]. *)
Example test_router_edge_case_exact_threshold :
  route default_router (sample_task false 80000 false (5 # 10)) = "openai"
  /\ route default_router (sample_task false 1000 false (8 # 10)) = "openai".
Proof. split; reflexivity. Qed.

End RouterProps.

(** ** Ensemble reconciliation *)

Module EnsembleProps.

Import Number Ensemble.

(** *** Exceptions of the arithmetic *)

Lemma bind_ok {A B} (m : Exc A) (k : A -> Exc B) (b : B) :
  bind m k = Ok b -> exists a, m = Ok a /\ k a = Ok b.
Proof. destruct m as [a|e]; cbn; [eauto | discriminate]. Qed.

Lemma bind_raise {A B} (m : Exc A) (k : A -> Exc B) (e : string) :
  bind m k = Raise e ->
  m = Raise e \/ exists a, m = Ok a /\ k a = Raise e.
Proof. destruct m as [a|e']; cbn; [eauto | intros [= ->]; auto]. Qed.

Lemma to_float_raises (x : number) (e : string) :
  to_float x = Raise e -> e = "OverflowError".
Proof.
  destruct x as [[|]|z|f]; unfold to_float; try discriminate.
  destruct (Z.abs z <? overflow_threshold)%Z; [discriminate|].
  intros [= <-]. reflexivity.
Qed.

Lemma arith_raises (on_int : Z -> Z -> Z) (on_float : float -> float -> float)
    (x y : number) (e : string) :
  arith on_int on_float x y = Raise e -> e = "OverflowError".
Proof.
  unfold arith.
  destruct (int_of x), (int_of y); try discriminate;
    intros H; apply bind_raise in H;
    destruct H as [H|(fx & _ & H)];
    try (apply to_float_raises in H; exact H);
    apply bind_raise in H; destruct H as [H|(fy & _ & H)];
    try (apply to_float_raises in H; exact H); discriminate.
Qed.

Lemma add_raises (x y : number) (e : string) :
  add x y = Raise e -> e = "OverflowError".
Proof. apply arith_raises. Qed.

Lemma sub_raises (x y : number) (e : string) :
  sub x y = Raise e -> e = "OverflowError".
Proof. apply arith_raises. Qed.

Lemma mul_raises (x y : number) (e : string) :
  mul x y = Raise e -> e = "OverflowError".
Proof. apply arith_raises. Qed.

Lemma format_f_raises (x : number) (e : string) :
  format_f x = Raise e -> e = "OverflowError".
Proof.
  unfold format_f. intros H. apply bind_raise in H.
  destruct H as [H|(f & _ & H)]; [|discriminate].
  apply to_float_raises in H. exact H.
Qed.

(** A division by the integer 100 or 2 raises on overflow only. *)
Lemma truediv_constant_raises (x : number) (k : Z) (e : string) :
  k = 100%Z \/ k = 2%Z ->
  truediv x (I k) = Raise e -> e = "OverflowError".
Proof.
  intros Hk. unfold truediv.
  destruct (int_of x) as [a|] eqn:Ex; cbn [int_of].
  - assert (E : (k =? 0)%Z = false) by (destruct Hk; subst; reflexivity).
    rewrite E.
    destruct (overflow_threshold * Z.abs k <=? Z.abs a)%Z; [|discriminate].
    intros [= <-]. reflexivity.
  - intros H. apply bind_raise in H. destruct H as [H|(fx & _ & H)].
    + apply to_float_raises in H. exact H.
    + destruct Hk; subst k; vm_compute in H; discriminate.
Qed.

Lemma operands_raises (a b : value) (e : string) :
  operands a b = Raise e -> e = "TypeError".
Proof.
  unfold operands. destruct a, b; try discriminate; intros [= <-]; reflexivity.
Qed.

(** *** The comparison *)

Tactic Notation "bind_ok_in" hyp(H) ident(x) ident(Hx) :=
  apply bind_ok in H; destruct H as (x & Hx & H); cbv beta in H.

(** What a comparison that [_compare_results] returned holds. *)
Lemma _compare_results_ok (self : EnsembleService) (o g : Result)
    (c : Comparison) :
  _compare_results self o g = Ok c ->
  Py.get (risk_score o) (VNum (I 50)) = VNum (openai_score c)
  /\ Py.get (risk_score g) (VNum (I 50)) = VNum (gemini_score c)
  /\ Py.get (confidence o) (VNum (F 0.5)) = VNum (openai_confidence c)
  /\ Py.get (confidence g) (VNum (F 0.5)) = VNum (gemini_confidence c)
  /\ (exists difference,
        sub (openai_score c) (gemini_score c) = Ok difference
        /\ score_deviation c = abs difference)
  /\ high_deviation c = gt (score_deviation c) (deviation_threshold self)
  /\ agreement c = negb (high_deviation c)
  /\ (exists sum,
        add (openai_score c) (gemini_score c) = Ok sum
        /\ truediv sum (I 2) = Ok (avg_score c)).
Proof.
  unfold _compare_results. cbv zeta. intros H.
  bind_ok_in H scores Hscores. destruct scores as [so sg].
  bind_ok_in H difference Hdifference.
  bind_ok_in H fraction Hfraction.
  bind_ok_in H percent Hpercent.
  bind_ok_in H confidences Hconfidences. destruct confidences as [oc gc].
  bind_ok_in H cdifference Hcdifference.
  bind_ok_in H sum Hsum.
  bind_ok_in H avg Havg.
  bind_ok_in H csum Hcsum.
  bind_ok_in H cavg Hcavg.
  injection H as <-.
  cbn [openai_score gemini_score openai_confidence gemini_confidence
       score_deviation high_deviation agreement avg_score].
  unfold operands in Hscores, Hconfidences.
  destruct (Py.get (risk_score o) _) as [|x| | |]; try discriminate.
  destruct (Py.get (risk_score g) _) as [|y| | |]; try discriminate.
  destruct (Py.get (confidence o) _) as [|p| | |]; try discriminate.
  destruct (Py.get (confidence g) _) as [|q| | |]; try discriminate.
  injection Hscores as <- <-. injection Hconfidences as <- <-.
  repeat split; eauto.
Qed.

(** [_compare_results] raises [TypeError] on a score or confidence that
    is no number and [OverflowError] on an integer too large for a float,
    and nothing else. *)
Lemma _compare_results_raises (self : EnsembleService) (o g : Result)
    (e : string) :
  _compare_results self o g = Raise e ->
  e = "TypeError" \/ e = "OverflowError".
Proof.
  unfold _compare_results. cbv zeta. intros H.
  apply bind_raise in H. destruct H as [H|([so sg] & _ & H)];
    [left; eapply operands_raises; eauto|]. cbv beta iota in H.
  apply bind_raise in H. destruct H as [H|(difference & _ & H)];
    [right; eapply sub_raises; eauto|]. cbv beta in H.
  apply bind_raise in H. destruct H as [H|(fraction & _ & H)];
    [right; eapply (truediv_constant_raises _ 100); eauto|]. cbv beta in H.
  apply bind_raise in H. destruct H as [H|(percent & _ & H)];
    [right; eapply mul_raises; eauto|]. cbv beta in H.
  apply bind_raise in H. destruct H as [H|([oc gc] & _ & H)];
    [left; eapply operands_raises; eauto|]. cbv beta iota in H.
  apply bind_raise in H. destruct H as [H|(cdifference & _ & H)];
    [right; eapply sub_raises; eauto|]. cbv beta in H.
  apply bind_raise in H. destruct H as [H|(sum & _ & H)];
    [right; eapply add_raises; eauto|]. cbv beta in H.
  apply bind_raise in H. destruct H as [H|(avg & _ & H)];
    [right; eapply (truediv_constant_raises _ 2); eauto|]. cbv beta in H.
  apply bind_raise in H. destruct H as [H|(csum & _ & H)];
    [right; eapply add_raises; eauto|]. cbv beta in H.
  apply bind_raise in H. destruct H as [H|(cavg & _ & H)];
    [right; eapply (truediv_constant_raises _ 2); eauto|]. cbv beta in H.
  discriminate.
Qed.

(** *** The decision *)

(** [_make_decision] on a comparison of high deviation. *)
Lemma _make_decision_escalate (o g : Result) (c : Comparison) :
  high_deviation c = true ->
  _make_decision o g c
  = (_ <- format_f (score_deviation c) ;;
     Ok {| decision_type := "ESCALATE";
           final_score := round (avg_score c) 1;
           risk_level := risk_level_of (avg_score c);
           decision_confidence :=
             round (min (openai_confidence c) (gemini_confidence c)) 2;
           reasoning :=
             HighDeviationDetected (score_deviation c) (openai_score c)
               (gemini_score c);
           requires_human_review := true;
           model_agreement := agreement c |})%exc.
Proof.
  intros H. unfold _make_decision, decision_branch. rewrite H.
  destruct (format_f (score_deviation c)) as [[]|e]; reflexivity.
Qed.

(** [_make_decision] on a comparison in agreement. *)
Lemma _make_decision_consensus (o g : Result) (c : Comparison) :
  high_deviation c = false ->
  agreement c = true ->
  _make_decision o g c
  = if gt (openai_confidence c) (gemini_confidence c) then
      (_ <- format_f (score_deviation c) ;;
       _ <- format_f (openai_confidence c) ;;
       Ok {| decision_type := "CONSENSUS";
             final_score := round (openai_score c) 1;
             risk_level := risk_level_of (openai_score c);
             decision_confidence := round (openai_confidence c) 2;
             reasoning :=
               ModelsInAgreement (score_deviation c) "OpenAI"
                 (openai_confidence c);
             requires_human_review := false;
             model_agreement := true |})%exc
    else
      (_ <- format_f (score_deviation c) ;;
       _ <- format_f (gemini_confidence c) ;;
       Ok {| decision_type := "CONSENSUS";
             final_score := round (gemini_score c) 1;
             risk_level := risk_level_of (gemini_score c);
             decision_confidence := round (gemini_confidence c) 2;
             reasoning :=
               ModelsInAgreement (score_deviation c) "Gemini"
                 (gemini_confidence c);
             requires_human_review := false;
             model_agreement := true |})%exc.
Proof.
  intros Hh Ha. unfold _make_decision, decision_branch. rewrite Hh, Ha.
  destruct (gt (openai_confidence c) (gemini_confidence c));
    destruct (format_f (score_deviation c)) as [[]|e]; try reflexivity;
    cbn [bind];
    match goal with
    | |- context [format_f ?x] => destruct (format_f x) as [[]|e']
    end; reflexivity.
Qed.

Lemma float_neq (a b : float) : Prim2SF a <> Prim2SF b -> F a <> F b.
Proof. intros H [= E]. apply H. rewrite E. reflexivity. Qed.

(** C3, as stated, fails on the tie: with equal confidences the result of
    the secondary provider (Gemini) is used, not that of the primary one.
    It also fails on the confidence reported, which is the chosen one
    rounded to two decimals. *)
Lemma consensus_tie_takes_gemini :
  let o := scored "openai" (I 70) (F 0.9) in
  let g := scored "gemini" (I 72) (F 0.9) in
  let o' := scored "openai" (I 70) (F 0.6) in
  let g' := scored "gemini" (I 72) (F 0.8125) in
  exists c d d',
    _compare_results default_service o g = Ok c
    /\ score_deviation c = I 2
    /\ gt (score_deviation c) (deviation_threshold default_service) = false
    /\ openai_confidence c = gemini_confidence c
    /\ decide default_service o g = Ok d
    /\ decision_type d = "CONSENSUS"
    /\ final_score d = I 72
    /\ final_score d <> I 70
    /\ reasoning d = ModelsInAgreement (I 2) "Gemini" (F 0.9)
    /\ decide default_service o' g' = Ok d'
    /\ decision_type d' = "CONSENSUS"
    /\ decision_confidence d' = F 0.81
    /\ decision_confidence d' <> F 0.8125.
Proof.
  cbv zeta. do 3 eexists.
  split; [vm_compute; reflexivity|].
  split; [reflexivity|]. split; [reflexivity|]. split; [reflexivity|].
  split; [vm_compute; reflexivity|].
  split; [reflexivity|]. split; [reflexivity|]. split; [discriminate|].
  split; [reflexivity|].
  split; [vm_compute; reflexivity|].
  split; [reflexivity|]. split; [reflexivity|].
  apply float_neq. vm_compute. discriminate.
Qed.

(** C3, amended.  When [_compare_results] returned a comparison whose
    score deviation is not above the threshold, [_make_decision] returns
    a CONSENSUS without human review, unless rendering an integer too
    large for a float in the reasoning text raises [OverflowError]; the
    score and confidence of the decision are those of the OpenAI result
    when OpenAI's confidence is strictly higher and those of the Gemini
    result otherwise (equal confidences included), the score rounded to
    one decimal and the confidence to two. *)
Theorem consensus_on_agreement (self : EnsembleService) (o g : Result)
    (c : Comparison) :
  _compare_results self o g = Ok c ->
  gt (score_deviation c) (deviation_threshold self) = false ->
  Py.get (risk_score o) (VNum (I 50)) = VNum (openai_score c)
  /\ Py.get (risk_score g) (VNum (I 50)) = VNum (gemini_score c)
  /\ Py.get (confidence o) (VNum (F 0.5)) = VNum (openai_confidence c)
  /\ Py.get (confidence g) (VNum (F 0.5)) = VNum (gemini_confidence c)
  /\ match _make_decision o g c with
     | Ok d =>
         decision_type d = "CONSENSUS"
         /\ requires_human_review d = false
         /\ model_agreement d = true
         /\ (gt (openai_confidence c) (gemini_confidence c) = true ->
             final_score d = round (openai_score c) 1
             /\ decision_confidence d = round (openai_confidence c) 2)
         /\ (gt (openai_confidence c) (gemini_confidence c) = false ->
             final_score d = round (gemini_score c) 1
             /\ decision_confidence d = round (gemini_confidence c) 2)
     | Raise e => e = "OverflowError"
     end.
Proof.
  intros Hc Hgt.
  destruct (_compare_results_ok self o g c Hc)
    as (Hos & Hgs & Hoc & Hgc & _ & Hh & Ha & _).
  rewrite Hgt in Hh. rewrite Hh in Ha. cbn [negb] in Ha.
  do 4 (split; [assumption|]).
  rewrite (_make_decision_consensus o g c Hh Ha).
  destruct (gt (openai_confidence c) (gemini_confidence c));
    destruct (format_f (score_deviation c)) as [[]|e] eqn:E1; cbn [bind];
    try (eapply format_f_raises; eassumption);
    match goal with
    | |- context [format_f ?x] => destruct (format_f x) as [[]|e'] eqn:E2
    end; cbn [bind];
    try (eapply format_f_raises; eassumption);
    cbn [decision_type requires_human_review model_agreement final_score
         decision_confidence];
    repeat split; try discriminate; reflexivity.
Qed.

Lemma consensus_on_agreement_witness :
  let o := scored "openai" (I 70) (F 0.6) in
  let g := scored "gemini" (I 72) (F 0.9) in
  exists c d,
    _compare_results default_service o g = Ok c
    /\ gt (score_deviation c) (deviation_threshold default_service) = false
    /\ _make_decision o g c = Ok d
    /\ decision_type d = "CONSENSUS"
    /\ requires_human_review d = false
    /\ final_score d = I 72
    /\ decision_confidence d = F 0.9.
Proof.
  cbv zeta.
  destruct (_compare_results default_service
              (scored "openai" (I 70) (F 0.6)) (scored "gemini" (I 72) (F 0.9)))
    as [c|e] eqn:Hc; [|vm_compute in Hc; discriminate].
  assert (Hgt : gt (score_deviation c) (deviation_threshold default_service)
                = false).
  { vm_compute in Hc. injection Hc as <-. reflexivity. }
  pose proof (consensus_on_agreement default_service _ _ c Hc Hgt)
    as (_ & _ & _ & _ & H).
  destruct (_make_decision (scored "openai" (I 70) (F 0.6))
              (scored "gemini" (I 72) (F 0.9)) c) as [d|e] eqn:Hd;
    [|vm_compute in Hc; injection Hc as <-; vm_compute in Hd; discriminate].
  exists c, d. split; [reflexivity|]. split; [exact Hgt|].
  split; [exact Hd|].
  destruct H as (Ht & Hr & _ & _ & Hg).
  split; [exact Ht|]. split; [exact Hr|].
  destruct Hg as [Hs Hk].
  { vm_compute in Hc. injection Hc as <-. reflexivity. }
  rewrite Hs, Hk. vm_compute in Hc. injection Hc as <-.
  split; vm_compute; reflexivity.
Defined.

(** C4, as stated, fails on the confidence: the decision carries the
    smaller confidence rounded to two decimals. *)
Lemma escalate_confidence_is_rounded :
  let o := scored "openai" (I 80) (F 0.9) in
  let g := scored "gemini" (I 40) (F 0.8125) in
  exists c d,
    _compare_results default_service o g = Ok c
    /\ gt (score_deviation c) (deviation_threshold default_service) = true
    /\ decide default_service o g = Ok d
    /\ decision_type d = "ESCALATE"
    /\ min (openai_confidence c) (gemini_confidence c) = F 0.8125
    /\ decision_confidence d = F 0.81
    /\ decision_confidence d
       <> min (openai_confidence c) (gemini_confidence c).
Proof.
  cbv zeta. do 2 eexists.
  split; [vm_compute; reflexivity|].
  split; [reflexivity|].
  split; [vm_compute; reflexivity|].
  split; [reflexivity|]. split; [reflexivity|]. split; [reflexivity|].
  apply float_neq. vm_compute. discriminate.
Qed.

(** C4, amended.  When [_compare_results] returned a comparison whose
    score deviation is above the threshold, [_make_decision] returns an
    ESCALATE that requires human review, unless rendering an integer too
    large for a float in the reasoning text raises [OverflowError]; the
    score of the decision is the mean of the two scores, as [(a + b) / 2]
    computes it, rounded to one decimal, and its confidence the smaller
    of the two confidences rounded to two decimals. *)
Theorem escalate_on_high_deviation (self : EnsembleService) (o g : Result)
    (c : Comparison) :
  _compare_results self o g = Ok c ->
  gt (score_deviation c) (deviation_threshold self) = true ->
  Py.get (risk_score o) (VNum (I 50)) = VNum (openai_score c)
  /\ Py.get (risk_score g) (VNum (I 50)) = VNum (gemini_score c)
  /\ Py.get (confidence o) (VNum (F 0.5)) = VNum (openai_confidence c)
  /\ Py.get (confidence g) (VNum (F 0.5)) = VNum (gemini_confidence c)
  /\ (exists sum,
        add (openai_score c) (gemini_score c) = Ok sum
        /\ truediv sum (I 2) = Ok (avg_score c))
  /\ match _make_decision o g c with
     | Ok d =>
         decision_type d = "ESCALATE"
         /\ requires_human_review d = true
         /\ model_agreement d = false
         /\ final_score d = round (avg_score c) 1
         /\ decision_confidence d
            = round (min (openai_confidence c) (gemini_confidence c)) 2
     | Raise e => e = "OverflowError"
     end.
Proof.
  intros Hc Hgt.
  destruct (_compare_results_ok self o g c Hc)
    as (Hos & Hgs & Hoc & Hgc & _ & Hh & Ha & Havg).
  rewrite Hgt in Hh. rewrite Hh in Ha. cbn [negb] in Ha.
  do 4 (split; [assumption|]). split; [exact Havg|].
  rewrite (_make_decision_escalate o g c Hh).
  destruct (format_f (score_deviation c)) as [[]|e] eqn:E1; cbn [bind].
  - cbn [decision_type requires_human_review model_agreement final_score
         decision_confidence].
    repeat split. exact Ha.
  - eapply format_f_raises; eassumption.
Qed.

Lemma escalate_on_high_deviation_witness :
  let o := scored "openai" (I 80) (F 0.9) in
  let g := scored "gemini" (I 40) (F 0.8) in
  deviation_threshold default_service = F 15
  /\ exists c d,
       _compare_results default_service o g = Ok c
       /\ gt (score_deviation c) (deviation_threshold default_service) = true
       /\ _make_decision o g c = Ok d
       /\ decision_type d = "ESCALATE"
       /\ requires_human_review d = true
       /\ final_score d = F 60
       /\ decision_confidence d = F 0.8.
Proof.
  cbv zeta. split; [reflexivity|].
  destruct (_compare_results default_service
              (scored "openai" (I 80) (F 0.9)) (scored "gemini" (I 40) (F 0.8)))
    as [c|e] eqn:Hc; [|vm_compute in Hc; discriminate].
  assert (Hgt : gt (score_deviation c) (deviation_threshold default_service)
                = true).
  { vm_compute in Hc. injection Hc as <-. reflexivity. }
  pose proof (escalate_on_high_deviation default_service _ _ c Hc Hgt)
    as (_ & _ & _ & _ & _ & H).
  destruct (_make_decision (scored "openai" (I 80) (F 0.9))
              (scored "gemini" (I 40) (F 0.8)) c) as [d|e] eqn:Hd;
    [|vm_compute in Hc; injection Hc as <-; vm_compute in Hd; discriminate].
  exists c, d. split; [reflexivity|]. split; [exact Hgt|].
  split; [exact Hd|].
  destruct H as (Ht & Hr & _ & Hs & Hk).
  split; [exact Ht|]. split; [exact Hr|].
  rewrite Hs, Hk. vm_compute in Hc. injection Hc as <-.
  split; vm_compute; reflexivity.
Defined.

(** The rounding and the subtraction are those of binary floating
    point: 0.295 rounds to 0.29 and 72.35 to 72.3, and the scores 1.1 and
    16.1 are 15.000000000000002 apart, above the threshold 15. *)
Example decisions_in_floating_point :
  round (F 0.295) 2 = F 0.29
  /\ round (F 72.35) 1 = F 72.3
  /\ exists c d,
       _compare_results default_service (scored "openai" (F 1.1) (F 0.9))
         (scored "gemini" (F 16.1) (F 0.8)) = Ok c
       /\ score_deviation c = F 15.000000000000002
       /\ decide default_service (scored "openai" (F 1.1) (F 0.9))
            (scored "gemini" (F 16.1) (F 0.8)) = Ok d
       /\ decision_type d = "ESCALATE"
       /\ final_score d = F 8.6.
Proof.
  split; [vm_compute; reflexivity|]. split; [vm_compute; reflexivity|].
  do 2 eexists. split; [vm_compute; reflexivity|].
  split; [reflexivity|]. split; [vm_compute; reflexivity|].
  split; reflexivity.
Qed.

(** The third branch of [_make_decision] is there: a comparison that is
    neither in agreement nor of high deviation takes it. *)
Lemma weighted_average_branch_exists :
  let o := scored "openai" (I 70) (F 0.6) in
  let g := scored "gemini" (I 80) (F 0.9) in
  exists c d,
    _compare_results default_service o g = Ok c
    /\ _make_decision o g
         {| openai_score := openai_score c;
            gemini_score := gemini_score c;
            score_deviation := score_deviation c;
            score_deviation_percent := score_deviation_percent c;
            openai_confidence := openai_confidence c;
            gemini_confidence := gemini_confidence c;
            confidence_delta := confidence_delta c;
            agreement := false;
            high_deviation := false;
            avg_score := avg_score c;
            avg_confidence := avg_confidence c;
            cmp_deviation_threshold := cmp_deviation_threshold c |} = Ok d
    /\ decision_type d = "WEIGHTED_AVERAGE"
    /\ final_score d = F 76.
Proof.
  cbv zeta. do 2 eexists. split; [vm_compute; reflexivity|].
  split; [vm_compute; reflexivity|]. split; reflexivity.
Qed.

(** C5.  On the comparison that [_compare_results] computes, where
    agreement is the negation of high deviation, the decision type is
    CONSENSUS or ESCALATE and never WEIGHTED_AVERAGE; when no decision is
    made, [TypeError] or [OverflowError] was raised. *)
Theorem decision_type_is_consensus_or_escalate
    (self : EnsembleService) (o g : Result) :
  match decide self o g with
  | Ok d =>
      (decision_type d = "CONSENSUS" \/ decision_type d = "ESCALATE")
      /\ decision_type d <> "WEIGHTED_AVERAGE"
  | Raise e => e = "TypeError" \/ e = "OverflowError"
  end.
Proof.
  unfold decide.
  destruct (_compare_results self o g) as [c|e] eqn:Hc; cbn [bind];
    [|eapply _compare_results_raises; eassumption].
  destruct (_compare_results_ok self o g c Hc)
    as (_ & _ & _ & _ & _ & _ & Ha & _).
  destruct (high_deviation c) eqn:Hh; cbn [negb] in Ha.
  - rewrite (_make_decision_escalate o g c Hh).
    destruct (format_f (score_deviation c)) as [[]|e] eqn:E1; cbn [bind].
    + split; [right; reflexivity | discriminate].
    + right. eapply format_f_raises; eassumption.
  - rewrite (_make_decision_consensus o g c Hh Ha).
    destruct (gt (openai_confidence c) (gemini_confidence c));
      destruct (format_f (score_deviation c)) as [[]|e] eqn:E1; cbn [bind];
      try (right; eapply format_f_raises; eassumption);
      match goal with
      | |- context [format_f ?x] => destruct (format_f x) as [[]|e'] eqn:E2
      end; cbn [bind];
      try (right; eapply format_f_raises; eassumption);
      (split; [left; reflexivity | discriminate]).
Qed.

(** *** Provider failures *)

Lemma analyze_risk_failure (response : Response) :
  success response = false ->
  analyze_risk response = Ok (openai_error_result (error response)).
Proof. intros H. unfold analyze_risk. rewrite H. reflexivity. Qed.

Lemma analyze_long_context_failure (response : Response) :
  success response = false ->
  analyze_long_context response
  = Ok (gemini_error_result (error response)).
Proof. intros H. unfold analyze_long_context. rewrite H. reflexivity. Qed.

(** Only a dictionary has [.get]. *)
Lemma dict_get_not_dict (data : value) (key : string) (default : value) :
  (forall items, data <> VDict items) ->
  dict_get data key default = Raise "AttributeError".
Proof.
  intros H. destruct data; try reflexivity. exfalso. eapply H. reflexivity.
Qed.

(** A reply that is valid JSON but no object escapes the [try] block of
    either service. *)
Lemma analyze_risk_not_object (response : Response) (raw : string)
    (data : value) :
  success response = true ->
  content response = Some (raw, Loaded data) ->
  (forall items, data <> VDict items) ->
  analyze_risk response = Raise "AttributeError".
Proof.
  intros Hs Hc Hd. unfold analyze_risk. rewrite Hs, Hc.
  rewrite (dict_get_not_dict _ _ _ Hd). reflexivity.
Qed.

Lemma analyze_long_context_not_object (response : Response) (raw : string)
    (data : value) :
  success response = true ->
  content response = Some (raw, Loaded data) ->
  (forall items, data <> VDict items) ->
  analyze_long_context response = Raise "AttributeError".
Proof.
  intros Hs Hc Hd. unfold analyze_long_context. rewrite Hs, Hc.
  rewrite (dict_get_not_dict _ _ _ Hd). reflexivity.
Qed.

(** Whenever the OpenAI call failed and Gemini answers, on the parallel
    attempt and on the retry, with valid JSON that is no object,
    [analyze_with_validation] raises [AttributeError]. *)
Lemma failed_call_beside_non_object_raises (self : EnsembleService)
    (o g o' g' : Response) (raw raw' : string) (data data' : value) :
  success o = false ->
  success o' = false ->
  success g = true ->
  content g = Some (raw, Loaded data) ->
  (forall items, data <> VDict items) ->
  success g' = true ->
  content g' = Some (raw', Loaded data') ->
  (forall items, data' <> VDict items) ->
  analyze_with_validation self (o, g) (o', g') = Raise "AttributeError".
Proof.
  intros Ho Ho' Hg Hc Hd Hg' Hc' Hd'.
  unfold analyze_with_validation, _parallel_analysis. cbn [fst snd].
  rewrite (analyze_risk_failure o Ho), (analyze_risk_failure o' Ho').
  rewrite (analyze_long_context_not_object g raw data Hg Hc Hd).
  rewrite (analyze_long_context_not_object g' raw' data' Hg' Hc' Hd').
  reflexivity.
Qed.

(** A score or confidence that is no number makes [_compare_results]
    raise. *)
Lemma _compare_results_non_number (self : EnsembleService) (o g : Result) :
  (forall n, Py.get (risk_score o) (VNum (I 50)) <> VNum n)
  \/ (forall n, Py.get (risk_score g) (VNum (I 50)) <> VNum n)
  \/ (forall n, Py.get (confidence o) (VNum (F 0.5)) <> VNum n)
  \/ (forall n, Py.get (confidence g) (VNum (F 0.5)) <> VNum n) ->
  exists e,
    _compare_results self o g = Raise e
    /\ (e = "TypeError" \/ e = "OverflowError").
Proof.
  intros H.
  destruct (_compare_results self o g) as [c|e] eqn:Hc.
  - exfalso.
    destruct (_compare_results_ok self o g c Hc) as (H1 & H2 & H3 & H4 & _).
    destruct H as [H|[H|[H|H]]]; eapply H; eassumption.
  - exists e. split; [reflexivity|].
    eapply _compare_results_raises; eassumption.
Qed.

(** Whenever the OpenAI call failed and Gemini answers with an object
    whose score or confidence is no number, [analyze_with_validation]
    raises, outside every [try] block. *)
Lemma failed_call_beside_non_number_raises (self : EnsembleService)
    (o g : Response) (fallback : Response * Response) (raw : string)
    (items : list (string * value)) :
  success o = false ->
  success g = true ->
  content g = Some (raw, Loaded (VDict items)) ->
  (forall n, Py.get (lookup "risk_score" items) (VNum (I 50)) <> VNum n)
  \/ (forall n, Py.get (lookup "confidence" items) (VNum (F 0.7)) <> VNum n) ->
  exists e,
    analyze_with_validation self (o, g) fallback = Raise e
    /\ (e = "TypeError" \/ e = "OverflowError").
Proof.
  intros Ho Hg Hc Hn.
  unfold analyze_with_validation, _parallel_analysis. cbn [fst snd].
  rewrite (analyze_risk_failure o Ho).
  unfold analyze_long_context. rewrite Hg, Hc.
  cbn [dict_get bind try_except].
  match goal with
  | |- context [_compare_results self ?ro ?rg] =>
      destruct (_compare_results_non_number self ro rg) as (e & He & Hcases)
  end.
  { cbn [risk_score confidence Py.get]. destruct Hn as [Hn|Hn]; auto. }
  rewrite He. cbn [bind]. eauto.
Qed.

(** The decision reasoning is built from the comparison alone: the
    decision reached when a provider call failed is, reasoning included,
    the decision reached when that provider answered with score 50 and
    confidence 0. *)
Lemma failure_not_in_decision_reasoning :
  let failed := _error_response "OpenAI call failed: timeout" "openai" in
  let answered := reply "openai" (I 50) (F 0) in
  let other := reply "gemini" (I 55) (F 0.9) in
  success failed = false
  /\ success answered = true
  /\ exists s1 v1 s2 v2,
       analyze_with_validation default_service (failed, other) (failed, other)
       = Ok (s1, v1)
       /\ analyze_with_validation default_service (answered, other)
            (answered, other) = Ok (s2, v2)
       /\ ensemble_decision v1 = ensemble_decision v2
       /\ reasoning (ensemble_decision v1)
          = ModelsInAgreement (I 5) "Gemini" (F 0.9).
Proof.
  cbv zeta. split; [reflexivity|]. split; [reflexivity|].
  do 4 eexists. split; [vm_compute; reflexivity|].
  split; [vm_compute; reflexivity|]. split; reflexivity.
Qed.

(** A successful response without reply text makes both attempts raise. *)
Lemma missing_reply_text_raises :
  let empty :=
    {| success := true; content := None; input_tokens := 0;
       output_tokens := 0; cost := 0; model := "model"; latency := 0;
       provider := "openai"; error := None |} in
  let other := reply "gemini" (I 55) (F 0.9) in
  analyze_with_validation default_service (empty, other) (empty, other)
  = Raise "TypeError".
Proof. reflexivity. Qed.

(** C6.  The OpenAI call fails and is mapped to the placeholder result;
    Gemini answers, on the parallel attempt and on the retry, with the
    text [[1, 2]], valid JSON that is no object, or with an object whose
    confidence is [null].  [analyze_with_validation] returns no decision:
    it raises [AttributeError] from [.get], which the services' [except
    json.JSONDecodeError] does not catch and the retry meets again, and
    [TypeError] from the subtraction in [_compare_results], which is
    outside every [try] block. *)
Theorem failed_provider_engine_raises :
  let failed := _error_response "OpenAI call failed: timeout" "openai" in
  let list_reply := reply_with "gemini" (VList [VNum (I 1); VNum (I 2)]) in
  let null_confidence :=
    reply_with "gemini"
      (VDict [("risk_score", VNum (I 80)); ("confidence", VNone)]) in
  success failed = false
  /\ analyze_risk failed
     = Ok (openai_error_result (Some "OpenAI call failed: timeout"))
  /\ analyze_long_context list_reply = Raise "AttributeError"
  /\ analyze_with_validation default_service (failed, list_reply)
       (failed, list_reply) = Raise "AttributeError"
  /\ (exists r,
        analyze_long_context null_confidence = Ok r
        /\ confidence r = Some VNone)
  /\ analyze_with_validation default_service (failed, null_confidence)
       (failed, null_confidence) = Raise "TypeError".
Proof.
  cbv zeta.
  split; [reflexivity|]. split; [reflexivity|]. split; [reflexivity|].
  split.
  - apply (failed_call_beside_non_object_raises default_service _ _ _ _
             "..." "..." (VList [VNum (I 1); VNum (I 2)])
             (VList [VNum (I 1); VNum (I 2)]));
      try reflexivity; discriminate.
  - split; [eexists; split; reflexivity|]. reflexivity.
Qed.

(** *** Metrics *)

Lemma to_float_zero : to_float (I 0) = Ok 0%float.
Proof. vm_compute. reflexivity. Qed.

Lemma cost_of_float_or_zero (r : Result) : float_or_zero (cost_of r).
Proof. unfold cost_of. destruct (md_cost _); [left; eauto | right; auto]. Qed.

Lemma latency_of_float_or_zero (r : Result) : float_or_zero (latency_of r).
Proof.
  unfold latency_of. destruct (md_latency _); [left; eauto | right; auto].
Qed.

Lemma add_float_or_zero (x y : number) :
  float_or_zero x -> float_or_zero y ->
  exists s, add x y = Ok s /\ float_or_zero s.
Proof.
  intros [[f ->]| ->] [[h ->]| ->]; unfold add, arith; cbn [int_of];
    rewrite ?to_float_zero; cbn [to_float bind]; eexists;
    (split; [reflexivity|]);
    first [ left; eexists; reflexivity | right; reflexivity ].
Qed.

Lemma max_float_or_zero (x y : number) :
  float_or_zero x -> float_or_zero y -> float_or_zero (max x y).
Proof. intros Hx Hy. unfold max. destruct (gt y x); assumption. Qed.

Lemma float_add_float_or_zero (t : float) (x : number) :
  float_or_zero x -> exists s, float_add t x = Ok s.
Proof.
  intros [[f ->]| ->]; unfold float_add; rewrite ?to_float_zero;
    cbn [to_float bind]; eauto.
Qed.

(** [_update_metrics] does not raise. *)
Lemma _update_metrics_returns (self : EnsembleService) (o g : Result)
    (c : Comparison) :
  exists self',
    _update_metrics self o g c = Ok self'
    /\ deviation_threshold self' = deviation_threshold self
    /\ total_requests (metrics self')
       = (total_requests (metrics self) + 1)%Z
    /\ agreements (metrics self')
       = (if agreement c then agreements (metrics self) + 1
          else agreements (metrics self))%Z
    /\ disagreements (metrics self')
       = (if agreement c then disagreements (metrics self)
          else disagreements (metrics self) + 1)%Z
    /\ escalations (metrics self')
       = (if high_deviation c then escalations (metrics self) + 1
          else escalations (metrics self))%Z.
Proof.
  unfold _update_metrics.
  destruct (add_float_or_zero _ _ (cost_of_float_or_zero o)
              (cost_of_float_or_zero g)) as (cost & -> & Hcost).
  cbn [bind].
  destruct (float_add_float_or_zero (total_cost (metrics self)) cost Hcost)
    as (tc & ->).
  cbn [bind].
  destruct (float_add_float_or_zero (total_latency (metrics self)) _
              (max_float_or_zero _ _ (latency_of_float_or_zero o)
                 (latency_of_float_or_zero g))) as (tl & ->).
  cbn [bind]. eexists. split; [reflexivity|].
  cbn [deviation_threshold metrics total_requests agreements disagreements
       escalations].
  repeat split.
Qed.

(** What a returning [analyze_with_validation] has computed. *)
Lemma analyze_with_validation_ok (self self' : EnsembleService)
    (first fallback : Response * Response) (v : Validation) :
  analyze_with_validation self first fallback = Ok (self', v) ->
  _compare_results self (openai_result v) (gemini_result v)
  = Ok (comparison v)
  /\ _make_decision (openai_result v) (gemini_result v) (comparison v)
     = Ok (ensemble_decision v)
  /\ _update_metrics self (openai_result v) (gemini_result v) (comparison v)
     = Ok self'
  /\ add (cost_of (openai_result v)) (cost_of (gemini_result v))
     = Ok (meta_total_cost v)
  /\ meta_total_latency v
     = max (latency_of (openai_result v)) (latency_of (gemini_result v)).
Proof.
  unfold analyze_with_validation. intros H.
  bind_ok_in H results Hresults. destruct results as [o g].
  bind_ok_in H c Hc.
  bind_ok_in H d Hd.
  bind_ok_in H updated Hupdated.
  bind_ok_in H cost Hcost.
  injection H as <- <-.
  cbn [openai_result gemini_result comparison ensemble_decision
       meta_total_cost meta_total_latency].
  repeat split; assumption.
Qed.

Lemma zero_metrics_consistent : metrics_consistent zero_metrics.
Proof. split; reflexivity. Qed.

Lemma _update_metrics_consistent (self self' : EnsembleService)
    (o g : Result) (c : Comparison) :
  _compare_results self o g = Ok c ->
  _update_metrics self o g c = Ok self' ->
  metrics_consistent (metrics self) ->
  metrics_consistent (metrics self').
Proof.
  intros Hc Hu [H1 H2].
  destruct (_compare_results_ok self o g c Hc)
    as (_ & _ & _ & _ & _ & _ & Ha & _).
  destruct (_update_metrics_returns self o g c)
    as (s & Hs & _ & Hn & Hag & Hdis & Hesc).
  rewrite Hu in Hs. injection Hs as <-.
  unfold metrics_consistent. rewrite Hn, Hag, Hdis, Hesc, Ha.
  destruct (high_deviation c); cbn [negb]; split; lia.
Qed.

Lemma call_consistent (self : EnsembleService) (c : Call) :
  metrics_consistent (metrics self) ->
  metrics_consistent (metrics (call self c)).
Proof.
  intros H. destruct c as [first fallback|]; cbn [call].
  - destruct (analyze_with_validation self first fallback) as [[self' v]|e]
      eqn:E; [|exact H].
    destruct (analyze_with_validation_ok self self' first fallback v E)
      as (Hc & _ & Hu & _).
    exact (_update_metrics_consistent self self' _ _ _ Hc Hu H).
  - apply zero_metrics_consistent.
Qed.

Lemma calls_consistent (cs : list Call) (self : EnsembleService) :
  metrics_consistent (metrics self) ->
  metrics_consistent (metrics (calls self cs)).
Proof.
  unfold calls. revert self.
  induction cs as [|c cs IH]; intros self H; cbn [fold_left].
  - exact H.
  - apply IH, call_consistent, H.
Qed.

(** C10.  After any sequence of [analyze_with_validation] and
    [reset_metrics] calls on a newly constructed service,
    [agreements + disagreements = total_requests] and
    [escalations = disagreements]. *)
Theorem metrics_invariant (deviation_threshold : option number)
    (env_threshold : option float) (cs : list Call) :
  let m := metrics (calls (EnsembleService_init deviation_threshold
                             env_threshold) cs) in
  (agreements m + disagreements m = total_requests m)%Z
  /\ escalations m = disagreements m.
Proof.
  apply calls_consistent, zero_metrics_consistent.
Qed.

(** Every analysis that returns is counted once. *)
Example metrics_after_three_calls :
  let o := reply "openai" (I 80) (F 0.9) in
  let g := reply "gemini" (I 40) (F 0.8) in
  let g' := reply "gemini" (I 78) (F 0.8) in
  let m := metrics (calls default_service
                      [Analyze (o, g) (o, g); Analyze (o, g') (o, g');
                       ResetMetrics; Analyze (o, g) (o, g)]) in
  total_requests m = 1%Z /\ agreements m = 0%Z
  /\ disagreements m = 1%Z /\ escalations m = 1%Z
  /\ total_cost m = 0.002%float.
Proof. cbv zeta. vm_compute. repeat split. Qed.

End EnsembleProps.

(** ** Audit chain *)

Module AuditProps.

Import Json Audit.

(** *** Serialization round trip *)

Lemma from_dict_to_dict (now : Now) (e : AuditEvent) :
  from_dict now (to_dict e) = Ok e.
Proof. destruct e. reflexivity. Qed.

(** The event hashed by the model is the one Python hashes: the digest of
    the first sample event is the one [hashlib] gives for the same
    fields. *)
Example first_event_hash :
  hash (AuditEvent_init monday_10h (JStr "user_action") (JStr "info")
          (JStr "alice") (JStr "approve") (JDict [("amount", JInt 100)])
          (JStr "0"))
  = JStr "114fc90464df03cc9c0c9c22743177563f0aa29e34d02163484eaaeff39d0420".
Proof. vm_compute. reflexivity. Qed.

(** C9.  [from_dict] on the [to_dict] of an event restores every
    attribute; for an event made by the constructor, the hash recomputed
    over the restored attributes is the hash stored in the event. *)
Theorem roundtrip_reproduces_hash (now now' : Now)
    (event_type severity user_id action details previous_hash : json) :
  let event :=
    AuditEvent_init now event_type severity user_id action details
      previous_hash in
  exists restored,
    from_dict now' (to_dict event) = Ok restored
    /\ restored = event
    /\ JStr (_calculate_hash restored) = hash event.
Proof.
  intros event. exists event. split; [apply from_dict_to_dict|].
  split; reflexivity.
Qed.

(** *** File names *)

Lemma string_length_app (s t : string) :
  String.length (s ++ t) = (String.length s + String.length t)%nat.
Proof. induction s as [|c s IH]; cbn; [reflexivity | rewrite IH; reflexivity]. Qed.

Lemma substring_all (t : string) : substring 0 (String.length t) t = t.
Proof. induction t as [|c t IH]; cbn; [reflexivity | rewrite IH; reflexivity]. Qed.

Lemma substring_skip (s t : string) :
  substring (String.length s) (String.length t) (s ++ t) = t.
Proof. induction s as [|c s IH]; cbn; [apply substring_all | exact IH]. Qed.

Lemma ends_with_app (s t : string) : ends_with t (s ++ t) = true.
Proof.
  unfold ends_with. rewrite string_length_app.
  replace (String.length s + String.length t - String.length t)%nat
    with (String.length s) by lia.
  rewrite substring_skip, String.eqb_refl, andb_true_r.
  apply Nat.leb_le. lia.
Qed.

(** Every name [_initialize_log_file] builds matches the pattern of the
    verifier's [glob]. *)
Lemma log_file_name_matches (d : string) :
  matches_pattern (log_file_name d) = true.
Proof.
  unfold matches_pattern, log_file_name.
  change ("audit_" ++ d ++ ".jsonl") with ("audit_" ++ (d ++ ".jsonl")).
  rewrite !string_length_app.
  replace ("audit_" ++ (d ++ ".jsonl")) with (("audit_" ++ d) ++ ".jsonl") at 2.
  2:{ cbn. reflexivity. }
  rewrite ends_with_app, andb_true_r.
  apply andb_true_intro. split.
  - apply Nat.leb_le. cbn. lia.
  - cbn. destruct d; reflexivity.
Qed.

(** *** Walking a chain *)

Lemma linked_snoc (prev last h : string) (events : list AuditEvent)
    (e : AuditEvent) :
  linked prev events last ->
  previous_hash e = JStr last ->
  hash e = JStr h ->
  String.length h = 64%nat ->
  linked prev (events ++ [e])%list h.
Proof.
  induction 1 as [prev|prev h0 last e0 rest Hp Hh H64 Hl IH];
    intros Hpe Hhe Hlen; cbn.
  - econstructor; eauto. constructor.
  - econstructor; eauto.
Qed.

(** The last hash of a chain with an event is a digest, never the
    sentinel. *)
Lemma linked_last_digest (prev last : string) (events : list AuditEvent) :
  linked prev events last -> events <> [] -> String.length last = 64%nat.
Proof.
  induction 1 as [prev|prev h last e rest Hp Hh H64 Hl IH]; intros Hne.
  - congruence.
  - destruct rest as [|e' rest'].
    + inversion Hl; subst. exact H64.
    + apply IH. discriminate.
Qed.

(** A line whose event is linked to the walk passes both checks. *)
Lemma check_line_linked (now : Now) (file : string) (w : Walk) (n : nat)
    (e : AuditEvent) (prev h : string) :
  walk_previous_hash w = JStr prev ->
  previous_hash e = JStr prev ->
  hash e = JStr h ->
  check_line now file w (n, line_of e)
  = {| total_events := S (total_events w);
       verified_events := S (verified_events w);
       broken_chains := broken_chains w;
       walk_previous_hash := JStr h |}.
Proof.
  destruct e, w. cbn [walk_previous_hash Audit.previous_hash Audit.hash].
  intros -> -> ->.
  unfold check_line, check_line_body, line_of, then_, eval, update, ret.
  cbn. rewrite !String.eqb_refl. cbn. reflexivity.
Qed.

Lemma check_lines_linked (now : Now) (file : string)
    (events : list AuditEvent) :
  forall (w : Walk) (k : nat) (prev last : string),
    walk_previous_hash w = JStr prev ->
    linked prev events last ->
    fold_left (check_line now file)
      (combine (seq k (List.length events)) (map line_of events)) w
    = {| total_events := total_events w + List.length events;
         verified_events := verified_events w + List.length events;
         broken_chains := broken_chains w;
         walk_previous_hash := JStr last |}.
Proof.
  induction events as [|e rest IH]; intros w k prev last Hw Hl.
  - inversion Hl; subst. destruct w; cbn in *. subst.
    rewrite !Nat.add_0_r. reflexivity.
  - inversion Hl as [|p h l e' r Hp Hh H64 Hr]; subst.
    cbn [List.length seq map combine fold_left].
    rewrite (check_line_linked now file w k e prev h Hw Hp Hh).
    erewrite (IH _ (S k) h last); [|reflexivity|exact Hr]. cbn.
    f_equal; lia.
Qed.

(** The report on a directory holding one segment file with a chain. *)
Lemma check_file_linked (now : Now) (file : string)
    (events : list AuditEvent) (w : Walk) (prev last : string) :
  walk_previous_hash w = JStr prev ->
  linked prev events last ->
  check_file now w (file, map line_of events)
  = {| total_events := total_events w + List.length events;
       verified_events := verified_events w + List.length events;
       broken_chains := broken_chains w;
       walk_previous_hash := JStr last |}.
Proof.
  intros Hw Hl. unfold check_file, enumerate1. cbn [fst snd].
  rewrite length_map. apply (check_lines_linked now file events w 1 prev last Hw Hl).
Qed.

(** *** One segment *)

Lemma append_file_absent (older fs : Dir) (file : string)
    (lines : list Line) :
  absent file older ->
  append_file (older ++ fs)%list file lines
  = (older ++ append_file fs file lines)%list.
Proof.
  induction 1 as [|[n l] older Hn Ho IH]; cbn; [reflexivity|].
  cbn in Hn. rewrite Hn, IH. reflexivity.
Qed.

Lemma append_dir_of (file : string) (stored buffered : list AuditEvent) :
  buffered <> [] ->
  append_file (dir_of file stored) file (map line_of buffered)
  = dir_of file (stored ++ buffered).
Proof.
  intros Hb. destruct stored as [|s stored]; cbn.
  - destruct buffered; [congruence | reflexivity].
  - rewrite String.eqb_refl, map_app. reflexivity.
Qed.

(** What a flush leaves of a segment. *)
Lemma _flush_buffer_segment (older : Dir) (file : string)
    (state : AuditLogger * Dir) (events : list AuditEvent) (last : string) :
  segment older file state events last ->
  events_buffer (fst (_flush_buffer (fst state) (snd state))) = []
  /\ snd (_flush_buffer (fst state) (snd state))
     = (older ++ dir_of file events)%list
  /\ current_log_file (fst (_flush_buffer (fst state) (snd state))) = file
  /\ last_hash (fst (_flush_buffer (fst state) (snd state))) = JStr last.
Proof.
  intros [Hf (stored & He & Hd) Hl Hh Ha]. destruct state as [self fs].
  cbn [fst snd] in *. unfold _flush_buffer.
  destruct (events_buffer self) as [|b buffered] eqn:Eb; cbn [fst snd].
  - rewrite app_nil_r in He. subst. auto.
  - cbn [events_buffer current_log_file last_hash]. subst fs events.
    rewrite Hf. change (map (fun event => Doc (to_dict event)) (b :: buffered))
      with (map line_of (b :: buffered)).
    rewrite append_file_absent by exact Ha.
    rewrite append_dir_of by discriminate. auto.
Qed.

Lemma empty_log_segment (now : Now) :
  segment [] (log_file_name (date_str now)) (empty_log now) [] "0".
Proof.
  split; cbn; try reflexivity.
  - exists []. split; reflexivity.
  - constructor.
  - constructor.
Qed.

Lemma _calculate_hash_length (e : AuditEvent) :
  String.length (_calculate_hash e) = 64%nat.
Proof. unfold _calculate_hash. apply hexdigest_length. Qed.

(** What [log_event] does to a logger whose current file is the one of
    the day: the event is chained to [last_hash] and buffered, and the
    buffer is flushed when it is full. *)
Lemma log_entry_same_day (d : string) (buf : list AuditEvent) (size : nat)
    (last : json) (fs : Dir) (entry : Entry) :
  date_str (entry_now entry) = d ->
  let self :=
    {| current_log_file := log_file_name d;
       last_hash := last;
       events_buffer := buf;
       buffer_size := size |} in
  let e :=
    AuditEvent_init (entry_now entry)
      (JStr (AuditEventType_value (entry_event_type entry)))
      (JStr (AuditSeverity_value (entry_severity entry)))
      (JStr (entry_user_id entry)) (JStr (entry_action entry))
      (entry_details entry) last in
  let self' :=
    {| current_log_file := log_file_name d;
       last_hash := hash e;
       events_buffer := (buf ++ [e])%list;
       buffer_size := size |} in
  log_entry (self, fs) entry
  = if (size <=? List.length (buf ++ [e]))%nat
    then _flush_buffer self' fs
    else (self', fs).
Proof.
  intros Hdate self e self'. unfold log_entry, log_event, self.
  cbn [fst snd current_log_file last_hash events_buffer buffer_size].
  rewrite Hdate, String.eqb_refl. cbn [negb].
  cbn [buffer_size events_buffer current_log_file last_hash].
  fold e. fold self'.
  destruct (size <=? _)%nat; [|reflexivity].
  destruct (_flush_buffer self' fs). reflexivity.
Qed.

(** One more [log_event] on the same day keeps the segment and adds an
    event to the chain. *)
Lemma log_entry_segment (older : Dir) (d : string)
    (state : AuditLogger * Dir) (events : list AuditEvent) (last : string)
    (entry : Entry) :
  segment older (log_file_name d) state events last ->
  date_str (entry_now entry) = d ->
  exists e h,
    segment older (log_file_name d) (log_entry state entry)
      (events ++ [e])%list h.
Proof.
  intros [Hf (stored & He & Hd) Hl Hh Ha] Hdate. destruct state as [self fs].
  destruct self as [cur lh buf size].
  cbn [fst snd current_log_file last_hash events_buffer] in *.
  subst cur lh fs events.
  rewrite (log_entry_same_day d buf size (JStr last) _ entry Hdate).
  set (e := AuditEvent_init (entry_now entry) _ _ _ _ _ (JStr last)).
  assert (Hlinked : linked "0" ((stored ++ buf) ++ [e])%list (_calculate_hash e)).
  { apply (linked_snoc "0" last);
      [exact Hl | reflexivity | reflexivity | apply _calculate_hash_length]. }
  exists e, (_calculate_hash e).
  destruct (size <=? _)%nat.
  - unfold _flush_buffer.
    cbn [events_buffer current_log_file last_hash buffer_size].
    destruct (buf ++ [e])%list as [|b buffered] eqn:Eb.
    { destruct buf; discriminate. }
    split; cbn [fst snd current_log_file events_buffer last_hash].
    + reflexivity.
    + exists ((stored ++ buf) ++ [e])%list.
      split; [rewrite app_nil_r; reflexivity|].
      rewrite <- Eb.
      change (map (fun event => Doc (to_dict event)) (buf ++ [e]))
        with (map line_of (buf ++ [e])).
      rewrite append_file_absent by exact Ha.
      rewrite append_dir_of by (destruct buf; discriminate).
      rewrite app_assoc. reflexivity.
    + exact Hlinked.
    + reflexivity.
    + exact Ha.
  - split; cbn [fst snd current_log_file events_buffer last_hash].
    + reflexivity.
    + exists stored. split; [|reflexivity]. rewrite app_assoc.
      reflexivity.
    + exact Hlinked.
    + reflexivity.
    + exact Ha.
Qed.

Lemma log_entries_segment (older : Dir) (d : string) (entries : list Entry) :
  forall (state : AuditLogger * Dir) (events : list AuditEvent) (last : string),
    segment older (log_file_name d) state events last ->
    Forall (fun entry => date_str (entry_now entry) = d) entries ->
    exists events' last',
      segment older (log_file_name d) (log_entries state entries)
        events' last'
      /\ List.length events' = (List.length events + List.length entries)%nat.
Proof.
  induction entries as [|entry entries IH]; intros state events last Hs Hd.
  - exists events, last. split; [exact Hs | cbn; lia].
  - apply Forall_cons_iff in Hd. destruct Hd as [Hentry Hrest].
    destruct (log_entry_segment older _ state events last entry Hs Hentry)
      as (e & h & Hs').
    destruct (IH _ _ _ Hs' Hrest) as (events' & last' & Hs'' & Hlen).
    exists events', last'. split; [exact Hs''|].
    rewrite Hlen, List.length_app. cbn. lia.
Qed.

(** Verification of a single segment: every event is verified and nothing
    is reported. *)
Lemma verify_single_segment (d : string) (state : AuditLogger * Dir)
    (events : list AuditEvent) (last : string) (now : Now) :
  segment [] (log_file_name d) state events last ->
  verify state now
  = {| report_total_events := List.length events;
       report_verified_events := List.length events;
       integrity_percentage :=
         if (0 <? List.length events)%nat then
           inject_Z (Z.of_nat (List.length events))
           / inject_Z (Z.of_nat (List.length events)) * 100
         else 0;
       report_broken_chains := [];
       intact := true |}.
Proof.
  intros Hs.
  destruct (_flush_buffer_segment _ _ state events last Hs)
    as (_ & Hfs & _ & _).
  destruct Hs as [_ _ Hl _ _].
  unfold verify, verify_chain_integrity.
  destruct (_flush_buffer (fst state) (snd state)) as [self' fs'].
  cbn [fst snd app] in *. subst fs'.
  destruct events as [|e events]; [reflexivity|].
  unfold dir_of, log_files. cbn [filter fst].
  rewrite log_file_name_matches. cbn [fold_right insert_file fold_left].
  erewrite check_file_linked; [|reflexivity|exact Hl].
  cbn. reflexivity.
Qed.

(** Any number of events logged on one day to an empty log verify: the
    report is intact and counts every event as verified. *)
Lemma single_day_log_verifies (now0 now : Now) (entries : list Entry) :
  Forall (fun entry => date_str (entry_now entry) = date_str now0) entries ->
  let report := verify (log_entries (empty_log now0) entries) now in
  intact report = true
  /\ report_verified_events report = List.length entries
  /\ report_total_events report = List.length entries
  /\ report_broken_chains report = [].
Proof.
  intros Hd report.
  destruct (log_entries_segment [] _ entries _ _ _
              (empty_log_segment now0) Hd)
    as (events & last & Hs & Hlen).
  unfold report. rewrite (verify_single_segment _ _ _ _ now Hs).
  cbn in Hlen. cbn. rewrite Hlen. auto.
Qed.

(** *** A change of day *)

(** A line whose event names another hash than the walk expects is
    reported and counted as not verified; the walk goes on from its
    hash. *)
Lemma check_line_mislinked (now : Now) (file : string) (w : Walk) (n : nat)
    (e : AuditEvent) (expected actual h : string) :
  walk_previous_hash w = JStr expected ->
  previous_hash e = JStr actual ->
  actual <> expected ->
  hash e = JStr h ->
  check_line now file w (n, line_of e)
  = {| total_events := S (total_events w);
       verified_events := verified_events w;
       broken_chains :=
         (broken_chains w
          ++ [PreviousHashMismatch file n (event_id e) (JStr expected)
                (JStr actual)])%list;
       walk_previous_hash := JStr h |}.
Proof.
  destruct e, w. cbn [walk_previous_hash Audit.previous_hash Audit.hash
                      Audit.event_id].
  intros -> -> Hne ->. apply String.eqb_neq in Hne.
  unfold check_line, check_line_body, line_of, then_, eval, update, ret.
  cbn. rewrite Hne. cbn. rewrite String.eqb_refl. cbn. reflexivity.
Qed.

Lemma log_entry_new_day (self : AuditLogger) (fs : Dir) (entry : Entry) :
  String.eqb (log_file_name (date_str (entry_now entry)))
    (current_log_file self) = false ->
  log_entry (self, fs) entry
  = log_entry (rotated self fs (date_str (entry_now entry))) entry.
Proof.
  intros Hnew. unfold log_entry, log_event, rotated. cbn [fst snd].
  rewrite Hnew. cbn [negb].
  destruct (_flush_buffer self fs) as [flushed fs']. cbn [fst snd].
  cbn [current_log_file]. rewrite String.eqb_refl. cbn [negb]. reflexivity.
Qed.

(** The first [log_event] of a new day closes the segment of the day
    before, whole, and opens a segment whose first event names the
    sentinel. *)
Lemma log_entry_opens_segment (file : string) (state : AuditLogger * Dir)
    (events : list AuditEvent) (last : string) (entry : Entry) :
  segment [] file state events last ->
  String.eqb (log_file_name (date_str (entry_now entry))) file = false ->
  exists e h,
    segment (dir_of file events) (log_file_name (date_str (entry_now entry)))
      (log_entry state entry) [e] h.
Proof.
  intros Hs Hnew.
  destruct (_flush_buffer_segment _ _ _ _ _ Hs) as (Hb & Hfs & _ & _).
  destruct Hs as [Hf _ _ _ _]. destruct state as [self fs].
  cbn [fst snd app] in *.
  rewrite log_entry_new_day by (rewrite Hf; exact Hnew).
  apply (log_entry_segment (dir_of file events) _ _ [] "0" entry);
    [|reflexivity].
  unfold rotated. split; cbn [fst snd current_log_file last_hash events_buffer].
  - reflexivity.
  - exists []. rewrite Hb, Hfs.
    replace (dir_of (log_file_name (date_str (entry_now entry))) [])
      with (@nil (string * list Line)) by reflexivity.
    rewrite !app_nil_r. split; reflexivity.
  - constructor.
  - reflexivity.
  - destruct events as [|e events]; constructor; [|constructor].
    cbn [fst]. rewrite String.eqb_sym. exact Hnew.
Qed.

(** Verification of two segments written on two days: the first line of
    the second file is reported and the log is not intact. *)
Lemma verify_two_segments (d1 d2 : string) (state : AuditLogger * Dir)
    (events1 events2 : list AuditEvent) (last1 last2 : string) (now : Now) :
  segment (dir_of (log_file_name d1) events1) (log_file_name d2) state
    events2 last2 ->
  linked "0" events1 last1 ->
  events1 <> [] ->
  events2 <> [] ->
  String.leb (log_file_name d1) (log_file_name d2) = true ->
  let report := verify state now in
  report_total_events report
  = (List.length events1 + List.length events2)%nat
  /\ S (report_verified_events report)
     = (List.length events1 + List.length events2)%nat
  /\ (exists saved_event_id,
        report_broken_chains report
        = [PreviousHashMismatch (log_file_name d2) 1 saved_event_id
             (JStr last1) (JStr "0")])
  /\ intact report = false.
Proof.
  intros Hs Hl1 Hne1 Hne2 Hleb report.
  destruct (_flush_buffer_segment _ _ state events2 last2 Hs)
    as (_ & Hfs & _ & _).
  destruct Hs as [_ _ Hl2 _ _].
  pose proof (linked_last_digest _ _ _ Hl1 Hne1) as Hlast.
  unfold report, verify, verify_chain_integrity.
  destruct (_flush_buffer (fst state) (snd state)) as [self' fs'].
  cbn [fst snd] in *. subst fs'.
  destruct events1 as [|e1 rest1]; [congruence|].
  destruct events2 as [|e2 rest2]; [congruence|].
  inversion Hl2 as [|p h l e' r Hp Hh H64 Hr]; subst.
  unfold dir_of, log_files. cbn [app filter fst].
  rewrite !log_file_name_matches.
  cbn [fold_right insert_file fst]. rewrite Hleb. cbn [fold_left].
  rewrite (check_file_linked now (log_file_name d1) (e1 :: rest1)
             {| total_events := 0;
                verified_events := 0;
                broken_chains := [];
                walk_previous_hash := JStr "0" |} "0" last1 eq_refl Hl1).
  unfold check_file, enumerate1. cbn [fst snd map List.length seq combine
                                       fold_left].
  erewrite check_line_mislinked; [|reflexivity|exact Hp| |exact Hh].
  2:{ intros E. rewrite <- E in Hlast. discriminate. }
  rewrite length_map.
  erewrite check_lines_linked; [|reflexivity|exact Hr].
  cbn [total_events verified_events broken_chains app List.length Nat.eqb
       report_total_events report_verified_events report_broken_chains
       intact].
  split; [lia|]. split; [lia|].
  split; [eexists; reflexivity | reflexivity].
Qed.

(** Events logged on one day followed by events logged on a later day,
    to an empty log: verification reports the first line of the second
    day and returns a log that is not intact, with all events but that
    one verified. *)
Lemma day_change_breaks_chain (now0 now : Now) (d2 : string)
    (entries1 entries2 : list Entry) :
  entries1 <> [] ->
  entries2 <> [] ->
  Forall (fun entry => date_str (entry_now entry) = date_str now0) entries1 ->
  Forall (fun entry => date_str (entry_now entry) = d2) entries2 ->
  String.eqb (log_file_name d2) (log_file_name (date_str now0)) = false ->
  String.leb (log_file_name (date_str now0)) (log_file_name d2) = true ->
  let report :=
    verify (log_entries (empty_log now0) (entries1 ++ entries2)) now in
  intact report = false
  /\ report_total_events report
     = (List.length entries1 + List.length entries2)%nat
  /\ S (report_verified_events report)
     = (List.length entries1 + List.length entries2)%nat
  /\ exists saved_event_id expected,
       report_broken_chains report
       = [PreviousHashMismatch (log_file_name d2) 1 saved_event_id
            (JStr expected) (JStr "0")].
Proof.
  intros Hne1 Hne2 Hd1 Hd2 Hnew Hleb report.
  destruct (log_entries_segment [] _ entries1 _ _ _
              (empty_log_segment now0) Hd1)
    as (events1 & last1 & Hs1 & Hlen1).
  cbn [List.length plus] in Hlen1.
  destruct entries2 as [|entry entries2]; [congruence|].
  apply Forall_cons_iff in Hd2. destruct Hd2 as [Hentry Hrest].
  pose proof Hs1 as [_ _ Hl1 _ _].
  rewrite <- Hentry in Hnew.
  destruct (log_entry_opens_segment _ _ _ _ entry Hs1 Hnew) as (e & h & Hs2).
  rewrite Hentry in Hs2.
  destruct (log_entries_segment _ _ entries2 _ _ _ Hs2 Hrest)
    as (events2 & last2 & Hs3 & Hlen2).
  assert (Hstate : log_entries (empty_log now0) (entries1 ++ entry :: entries2)
                   = log_entries
                       (log_entry (log_entries (empty_log now0) entries1) entry)
                       entries2).
  { unfold log_entries. rewrite fold_left_app. reflexivity. }
  assert (Hev1 : events1 <> []).
  { destruct events1; [|discriminate]. destruct entries1; [congruence|].
    discriminate. }
  assert (Hev2 : events2 <> []).
  { destruct events2; [|discriminate]. cbn in Hlen2. lia. }
  destruct (verify_two_segments _ _ _ _ _ _ _ now Hs3 Hl1 Hev1 Hev2 Hleb)
    as (Ht & Hv & (saved & Hb) & Hi).
  unfold report. rewrite Hstate.
  cbn [List.length] in *.
  repeat split; try assumption; try lia.
  exists saved, last1. exact Hb.
Qed.

(** *** Altering stored details *)

Lemma lookup_assign_same (key : string) (value : json)
    (items : list (string * json)) :
  lookup key (assign key value items) = Some value.
Proof.
  induction items as [|[k v] rest IH]; cbn.
  - rewrite String.eqb_refl. reflexivity.
  - destruct (String.eqb k key) eqn:E; cbn; rewrite E; [reflexivity | exact IH].
Qed.

Lemma lookup_assign_other (key key' : string) (value : json)
    (items : list (string * json)) :
  String.eqb key key' = false ->
  lookup key' (assign key value items) = lookup key' items.
Proof.
  intros Hk. induction items as [|[k v] rest IH]; cbn.
  - rewrite Hk. reflexivity.
  - destruct (String.eqb k key) eqn:E; cbn.
    + apply String.eqb_eq in E. subst k. rewrite Hk. reflexivity.
    + rewrite IH. reflexivity.
Qed.

Lemma getitem_assign_other (key key' : string) (value : json)
    (items : list (string * json)) :
  String.eqb key key' = false ->
  getitem (JDict (assign key value items)) key' = getitem (JDict items) key'.
Proof.
  intros Hk. unfold getitem. rewrite (lookup_assign_other _ _ _ _ Hk).
  reflexivity.
Qed.

(** [from_dict] reads the altered details and nothing else differs: the
    event it builds carries the saved hash of the line as before. *)
Lemma from_dict_assign_details (now : Now) (new_details : json)
    (items : list (string * json)) :
  lookup "details" items <> None ->
  from_dict now (JDict (assign "details" new_details items))
  = match from_dict now (JDict items) with
    | Ok e => Ok (with_details new_details e)
    | Raise x => Raise x
    end.
Proof.
  intros Hd. unfold from_dict, getitem.
  destruct (lookup "details" items) as [old|] eqn:Eold; [clear Hd|congruence].
  pose proof (fun k H => lookup_assign_other "details" k new_details items H)
    as Hother.
  rewrite (Hother "event_type" eq_refl).
  destruct (lookup "event_type" items); cbn [bind]; [|reflexivity].
  rewrite (Hother "severity" eq_refl).
  destruct (lookup "severity" items); cbn [bind]; [|reflexivity].
  rewrite (Hother "user_id" eq_refl).
  destruct (lookup "user_id" items); cbn [bind]; [|reflexivity].
  rewrite (Hother "action" eq_refl).
  destruct (lookup "action" items); cbn [bind]; [|reflexivity].
  rewrite lookup_assign_same. cbn [bind].
  rewrite (Hother "previous_hash" eq_refl).
  destruct (lookup "previous_hash" items); cbn [bind]; [|reflexivity].
  rewrite (Hother "event_id" eq_refl).
  destruct (lookup "event_id" items); cbn [bind]; [|reflexivity].
  rewrite (Hother "timestamp" eq_refl).
  destruct (lookup "timestamp" items); cbn [bind]; [|reflexivity].
  rewrite (Hother "hash" eq_refl).
  destruct (lookup "hash" items); cbn [bind]; reflexivity.
Qed.

(** The inner loop does to an altered line what it does to the line. *)
Lemma check_line_alter_details (now : Now) (file : string) (w : Walk)
    (n : nat) (new_details : json) (line : Line) :
  has_details line ->
  check_line now file w (n, alter_details new_details line)
  = check_line now file w (n, line).
Proof.
  intros Hd. destruct line as [data|raw]; [|reflexivity].
  destruct data as [| | | | | |items]; try reflexivity.
  cbn [has_details] in Hd.
  unfold check_line, check_line_body, alter_details.
  cbn [fst snd loads]. unfold then_, eval, update, ret.
  replace (getitem (JDict (assign "details" new_details items)) "previous_hash")
    with (getitem (JDict items) "previous_hash")
    by (symmetry; apply getitem_assign_other; reflexivity).
  replace (getitem (JDict (assign "details" new_details items)) "event_id")
    with (getitem (JDict items) "event_id")
    by (symmetry; apply getitem_assign_other; reflexivity).
  replace (getitem (JDict (assign "details" new_details items)) "hash")
    with (getitem (JDict items) "hash")
    by (symmetry; apply getitem_assign_other; reflexivity).
  rewrite (from_dict_assign_details now new_details items Hd).
  destruct (getitem (JDict items) "previous_hash") as [actual|]; [|reflexivity].
  destruct (negb (eqb actual (walk_previous_hash (count_event w)))).
  - destruct (getitem (JDict items) "event_id") as [saved|]; [|reflexivity].
    destruct (from_dict now (JDict items)) as [e|]; [|reflexivity].
    destruct (getitem (JDict items) "hash"); reflexivity.
  - destruct (from_dict now (JDict items)) as [e|]; [|reflexivity].
    destruct (getitem (JDict items) "hash"); reflexivity.
Qed.

Lemma length_alter_nth {A} (f : A -> A) (k : nat) (l : list A) :
  List.length (alter_nth f k l) = List.length l.
Proof.
  revert k. induction l as [|x l IH]; intros [|k]; cbn; try reflexivity.
  rewrite IH. reflexivity.
Qed.

Lemma check_lines_alter_details (now : Now) (file : string)
    (new_details : json) (lines : list Line) :
  Forall has_details lines ->
  forall (k start : nat) (w : Walk),
    fold_left (check_line now file)
      (combine (seq start (List.length lines))
         (alter_nth (alter_details new_details) k lines)) w
    = fold_left (check_line now file)
        (combine (seq start (List.length lines)) lines) w.
Proof.
  induction 1 as [|line lines Hline Hlines IH]; intros k start w.
  - destruct k; reflexivity.
  - destruct k as [|k]; cbn [alter_nth List.length seq combine fold_left].
    + rewrite check_line_alter_details by exact Hline. reflexivity.
    + apply IH.
Qed.

Lemma check_file_tamper_file (now : Now) (w : Walk) (name : string)
    (line_num : nat) (new_details : json) (f : string * list Line) :
  Forall has_details (snd f) ->
  check_file now w (tamper_file name line_num new_details f)
  = check_file now w f.
Proof.
  intros Hf. unfold tamper_file. destruct (String.eqb (fst f) name); [|reflexivity].
  unfold check_file, enumerate1. cbn [fst snd].
  rewrite length_alter_nth. apply check_lines_alter_details, Hf.
Qed.

Lemma fst_tamper_file (name : string) (line_num : nat) (new_details : json)
    (f : string * list Line) :
  fst (tamper_file name line_num new_details f) = fst f.
Proof. unfold tamper_file. destruct (String.eqb (fst f) name); reflexivity. Qed.

Lemma insert_file_map (g : string * list Line -> string * list Line)
    (f : string * list Line) (files : Dir) :
  (forall x, fst (g x) = fst x) ->
  insert_file (g f) (map g files) = map g (insert_file f files).
Proof.
  intros Hg. induction files as [|h t IH]; cbn; [reflexivity|].
  rewrite !Hg. destruct (String.leb (fst f) (fst h)); cbn; [reflexivity|].
  rewrite IH. reflexivity.
Qed.

(** The verifier lists the files of a tampered directory in the same
    order, each tampered. *)
Lemma log_files_tamper (fs : Dir) (name : string) (line_num : nat)
    (new_details : json) :
  log_files (tamper_details fs name line_num new_details)
  = map (tamper_file name line_num new_details) (log_files fs).
Proof.
  unfold log_files, tamper_details.
  induction fs as [|f fs IH]; cbn [map filter]; [reflexivity|].
  rewrite fst_tamper_file. destruct (matches_pattern (fst f)); [|exact IH].
  cbn [fold_right]. rewrite IH.
  apply insert_file_map. intros x. apply fst_tamper_file.
Qed.

Lemma in_insert_file (x f : string * list Line) (files : Dir) :
  In x (insert_file f files) -> x = f \/ In x files.
Proof.
  induction files as [|h t IH]; cbn.
  - intros [H|[]]; auto.
  - destruct (String.leb (fst f) (fst h)); cbn.
    + intros [H|[H|H]]; auto.
    + intros [H|H]; auto. destruct (IH H); auto.
Qed.

Lemma in_log_files (x : string * list Line) (fs : Dir) :
  In x (log_files fs) -> In x fs.
Proof.
  unfold log_files. induction fs as [|f fs IH]; cbn; [auto|].
  destruct (matches_pattern (fst f)); cbn.
  - intros H. apply in_insert_file in H. destruct H; [left; auto | right; auto].
  - intros H. right. auto.
Qed.

Lemma check_files_tamper (now : Now) (name : string) (line_num : nat)
    (new_details : json) (files : Dir) :
  (forall f, In f files -> Forall has_details (snd f)) ->
  forall w,
    fold_left (check_file now)
      (map (tamper_file name line_num new_details) files) w
    = fold_left (check_file now) files w.
Proof.
  induction files as [|f files IH]; intros Hall w; cbn; [reflexivity|].
  rewrite check_file_tamper_file by (apply Hall; left; reflexivity).
  apply IH. intros x Hx. apply Hall. right. exact Hx.
Qed.

(** On a flushed log whose stored objects all have a details key,
    replacing the details of any stored line changes nothing in the
    verification report. *)
Lemma tampered_details_same_report (self : AuditLogger) (fs : Dir)
    (now : Now) (name : string) (line_num : nat) (new_details : json) :
  events_buffer self = [] ->
  (forall f, In f fs -> Forall has_details (snd f)) ->
  verify (self, tamper_details fs name line_num new_details) now
  = verify (self, fs) now.
Proof.
  intros Hb Hall. unfold verify, verify_chain_integrity, _flush_buffer.
  cbn [fst snd]. rewrite Hb. cbn [snd].
  rewrite log_files_tamper, check_files_tamper; [reflexivity|].
  intros f Hf. apply Hall, in_log_files, Hf.
Qed.

(** Every line the logger writes has a details key. *)
Lemma dir_of_has_details (file : string) (events : list AuditEvent) :
  forall f, In f (dir_of file events) -> Forall has_details (snd f).
Proof.
  intros f Hf. destruct events as [|e events]; [destruct Hf|].
  destruct Hf as [<-|[]]. cbn [snd]. apply Forall_forall.
  intros line Hline. apply in_map_iff in Hline.
  destruct Hline as (e' & <- & _). cbn. discriminate.
Qed.

(** After the flush of [verify_chain_integrity] a single segment is
    stored whole. *)
Lemma persisted_segment (file : string) (state : AuditLogger * Dir)
    (events : list AuditEvent) (last : string) (now : Now) :
  segment [] file state events last ->
  segment [] file (persisted state now) events last
  /\ events_buffer (fst (persisted state now)) = []
  /\ snd (persisted state now) = dir_of file events.
Proof.
  intros Hs.
  destruct (_flush_buffer_segment _ _ _ _ _ Hs) as (Hb & Hfs & Hf & Hh).
  destruct Hs as [_ _ Hl _ Ha].
  unfold persisted, verify_chain_integrity.
  destruct (_flush_buffer (fst state) (snd state)) as [self' fs'].
  cbn [fst snd] in *. split; [|split; assumption].
  split; cbn [fst snd]; try assumption.
  exists events. rewrite Hb, app_nil_r. split; [reflexivity | assumption].
Qed.

(** Whatever is logged on one day and stored, and whichever stored line
    then has its details replaced by whatever value, verification reports
    an intact chain with every event verified. *)
Lemma single_day_tampering_undetected (now0 now : Now) (entries : list Entry)
    (name : string) (line_num : nat) (new_details : json) :
  Forall (fun entry => date_str (entry_now entry) = date_str now0) entries ->
  let log := persisted (log_entries (empty_log now0) entries) now in
  let tampered :=
    (fst log, tamper_details (snd log) name line_num new_details) in
  intact (verify tampered now) = true
  /\ report_broken_chains (verify tampered now) = []
  /\ report_verified_events (verify tampered now) = List.length entries.
Proof.
  intros Hd log tampered.
  destruct (log_entries_segment [] _ entries _ _ _
              (empty_log_segment now0) Hd)
    as (events & last & Hs & Hlen).
  destruct (persisted_segment _ _ _ _ now Hs) as (Hs' & Hb & Hfs).
  fold log in Hs', Hb, Hfs.
  unfold tampered.
  rewrite tampered_details_same_report;
    [|exact Hb|rewrite Hfs; apply dir_of_has_details].
  replace (fst log, snd log) with log by (destruct log; reflexivity).
  rewrite (verify_single_segment _ _ _ _ now Hs').
  cbn in Hlen. cbn. rewrite Hlen. auto.
Qed.

(** C1.  Two events are logged and stored; the details of the first
    stored event are then changed from amount 100 to amount 999999, its
    stored hash left as it was.  The hash recomputed over the altered
    line differs from the stored one, yet [verify_chain_integrity]
    reports no broken chain and an intact log: [from_dict] has put the
    stored hash into the event before the comparison. *)
Theorem altered_details_pass_verification :
  let log :=
    persisted
      (log_entries (empty_log monday_10h)
         [approval monday_10h 100; approval monday_11h 200])
      monday_11h in
  let tampered :=
    (fst log,
     tamper_details (snd log) "audit_20240101.jsonl" 1
       (JDict [("amount", JInt 999999)])) in
  snd tampered <> snd log
  /\ (exists lines data restored,
        read_file (snd tampered) "audit_20240101.jsonl" = Some lines
        /\ nth_error lines 0 = Some (Doc data)
        /\ from_dict monday_11h data = Ok restored
        /\ details restored = JDict [("amount", JInt 999999)]
        /\ JStr (_calculate_hash restored) <> hash restored)
  /\ report_total_events (verify tampered monday_11h) = 2%nat
  /\ report_verified_events (verify tampered monday_11h) = 2%nat
  /\ report_broken_chains (verify tampered monday_11h) = []
  /\ intact (verify tampered monday_11h) = true.
Proof.
  cbv zeta. split; [vm_compute; congruence|]. split.
  - do 3 eexists. split; [vm_compute; reflexivity|].
    split; [reflexivity|]. split; [vm_compute; reflexivity|].
    split; [reflexivity|]. vm_compute. congruence.
  - vm_compute. auto.
Qed.

(** C2.  One event is logged on 2024-01-01 and one on 2024-01-02, to an
    empty log.  The second event opens a new segment and carries the
    sentinel ["0"]; the verifier expects the hash of the last event of the
    previous segment there, reports the line and returns
    [intact = false] with one event verified out of two. *)
Theorem two_day_log_reported_broken :
  let log :=
    log_entries (empty_log monday_10h)
      [approval monday_10h 100; approval tuesday_10h 200] in
  let report := verify log tuesday_10h in
  report_total_events report = 2%nat
  /\ report_verified_events report = 1%nat
  /\ report_broken_chains report
     = [PreviousHashMismatch "audit_20240102.jsonl" 1
          (JStr "AUD-1704189600000-deadbeef")
          (JStr "114fc90464df03cc9c0c9c22743177563f0aa29e34d02163484eaaeff39d0420")
          (JStr "0")]
  /\ intact report = false.
Proof.
  cbv zeta. vm_compute. auto.
Qed.

(** The report on the two sample events is an instance of what every
    change of day gives. *)
Example two_day_log_is_a_day_change :
  let report :=
    verify
      (log_entries (empty_log monday_10h)
         ([approval monday_10h 100] ++ [approval tuesday_10h 200]))
      tuesday_10h in
  intact report = false
  /\ S (report_verified_events report) = 2%nat.
Proof.
  cbv zeta.
  assert (H1 : [approval monday_10h 100] <> []) by discriminate.
  assert (H2 : [approval tuesday_10h 200] <> []) by discriminate.
  assert (H3 : Forall (fun entry => date_str (entry_now entry)
                                    = date_str monday_10h)
                 [approval monday_10h 100]) by (repeat constructor).
  assert (H4 : Forall (fun entry => date_str (entry_now entry) = "20240102")
                 [approval tuesday_10h 200]) by (repeat constructor).
  assert (H5 : String.eqb (log_file_name "20240102")
                 (log_file_name (date_str monday_10h)) = false)
    by reflexivity.
  assert (H6 : String.leb (log_file_name (date_str monday_10h))
                 (log_file_name "20240102") = true) by reflexivity.
  pose proof (day_change_breaks_chain monday_10h tuesday_10h "20240102"
                _ _ H1 H2 H3 H4 H5 H6) as (Hi & _ & Hv & _).
  split; [exact Hi | exact Hv].
Qed.

(** The same two events logged on one day verify. *)
Example one_day_log_verifies :
  let log :=
    log_entries (empty_log monday_10h)
      [approval monday_10h 100; approval monday_11h 200] in
  intact (verify log monday_11h) = true
  /\ report_verified_events (verify log monday_11h) = 2%nat.
Proof.
  cbv zeta.
  destruct (single_day_log_verifies monday_10h monday_11h
              [approval monday_10h 100; approval monday_11h 200])
    as (H1 & H2 & _).
  - repeat constructor.
  - split; assumption.
Qed.

End AuditProps.
